(** * create_file: an Ansible module that ensures a text file's state

    A shallow embedding of [plugins/modules/create_file.py].  The module's
    four functions ([write_file], [get_file_diff], [create_backup],
    [run_module]) are transcribed statement by statement over a small
    monad that threads the machine state and models Python's two ways of
    leaving a function early: a raised exception, and the process exit
    performed by [module.exit_json] / [module.fail_json].

    The machine is a finite map from paths to files and directories; a
    file holds bytes.  The calls into Python's library ([os.path.exists],
    [os.path.dirname], [os.makedirs], [open]) are functions on that map.
    [open] works in text mode as Python does: reading decodes the bytes
    (an undecodable file raises [UnicodeDecodeError], which is no
    [OSError]) and turns every line ending into a line feed; writing
    truncates the file at [open] and then encodes the text (text that
    cannot be encoded raises [UnicodeEncodeError] with the file left
    empty).  The locale's encoding is UTF-8 and the umask 022.  A path is
    looked up as it is written: the keys of the map and the path of a
    request are in canonical form (no repeated or trailing separator, no
    dot component, no symbolic link).  The two helpers of the host runtime
    that touch the machine ([backup_local],
    [set_fs_attributes_if_different]) are not part of the repository and
    are modelled as the specification describes them.  Runs are
    sequential: nothing else changes the machine between two statements. *)

From Stdlib Require Import Ascii NArith.
From stdpp Require Import base option gmap strings pretty.

Open Scope string_scope.

(** ** The machine: a file system keyed by path *)

Record attrs := Attrs {
  st_owner : string;
  st_group : string;
  st_mode  : string
}.

(** A node is a regular file, with the bytes it holds, or a directory.
    [r_ok] and [w_ok] say whether the process may read / write the node
    (what [os.access] answers).  On the machine a run starts from they are
    given; once the run changes a node's owner, group or mode they are
    worked out again from the new attributes (see [chattr]). *)
Inductive node :=
| File (data : string) (st : attrs) (r_ok w_ok : bool)
| Dir (st : attrs) (w_ok : bool).

Record world := World {
  fs       : gmap string node;   (* the files and directories, by path       *)
  pid      : N;                  (* os.getpid()                              *)
  now      : string;             (* time.strftime("%Y-%m-%d@%H:%M:%S~")      *)
  euser    : string;             (* owner given to nodes the process creates *)
  egroup   : string;             (* group given to nodes the process creates *)
  warnings : list string         (* what module.warn has logged, oldest first *)
}.

Definition with_fs (w : world) (m : gmap string node) : world :=
  {| fs := m; pid := pid w; now := now w; euser := euser w;
     egroup := egroup w; warnings := warnings w |}.

Definition node_attrs (n : node) : attrs :=
  match n with File _ st _ _ => st | Dir st _ => st end.

(** The bytes of the regular file stored at a path, if any. *)
Definition file_data (w : world) (p : string) : option string :=
  match fs w !! p with Some (File d _ _ _) => Some d | _ => None end.

Definition file_attrs (w : world) (p : string) : option attrs :=
  node_attrs <$> fs w !! p.

(** ** Python exceptions *)

(** [OSError] (of which [IOError] is an alias) carries errno, strerror and
    the file name; [Error] stands for every other subclass of [Exception]. *)
Inductive exn :=
| OSError (errno : N) (strerror : string) (filename : string)
| Error (msg : string).

(** [str(e)] *)
Definition str (e : exn) : string :=
  match e with
  | OSError n s f => "[Errno " +:+ pretty n +:+ "] " +:+ s +:+ ": '" +:+ f +:+ "'"
  | Error m => m
  end.

(** The handler clauses used by the module. *)
Definition IOError_OSError (e : exn) : bool :=
  match e with OSError _ _ _ => true | Error _ => false end.

Definition Exception (e : exn) : bool := true.

Definition ENOENT  (f : string) : exn := OSError 2  "No such file or directory" f.
Definition EACCES  (f : string) : exn := OSError 13 "Permission denied" f.
Definition EEXIST  (f : string) : exn := OSError 17 "File exists" f.
Definition ENOTDIR (f : string) : exn := OSError 20 "Not a directory" f.
Definition EISDIR  (f : string) : exn := OSError 21 "Is a directory" f.

(** ** The result dictionary and the two ways the module ends *)

Record diff := Diff { before : string; after : string }.

(** The keys of [result].  ['diff'] and ['backup_file'] are optional keys
    ([None] = key absent); the value stored under ['diff'] may itself be
    Python's [None] (no before/after pair), hence the nested option. *)
Record result := Result {
  r_changed     : bool;
  r_path        : string;
  r_content     : string;
  r_diff        : option (option diff);
  r_backup_file : option string
}.

Definition set_changed (r : result) (b : bool) : result :=
  {| r_changed := b; r_path := r_path r; r_content := r_content r;
     r_diff := r_diff r; r_backup_file := r_backup_file r |}.
Definition set_path (r : result) (p : string) : result :=
  {| r_changed := r_changed r; r_path := p; r_content := r_content r;
     r_diff := r_diff r; r_backup_file := r_backup_file r |}.
Definition set_content (r : result) (c : string) : result :=
  {| r_changed := r_changed r; r_path := r_path r; r_content := c;
     r_diff := r_diff r; r_backup_file := r_backup_file r |}.
Definition set_diff (r : result) (d : option diff) : result :=
  {| r_changed := r_changed r; r_path := r_path r; r_content := r_content r;
     r_diff := Some d; r_backup_file := r_backup_file r |}.
Definition set_backup_file (r : result) (b : string) : result :=
  {| r_changed := r_changed r; r_path := r_path r; r_content := r_content r;
     r_diff := r_diff r; r_backup_file := Some b |}.

(** [module.exit_json] and [module.fail_json], called with the keys of
    [result] as keyword arguments (and [msg] for the latter), print the
    record and terminate the process. *)
Inductive exit :=
| ExitJson (r : result)
| FailJson (msg : string) (r : result).

Definition exit_result (x : exit) : result :=
  match x with ExitJson r => r | FailJson _ r => r end.

Definition succeeded (x : exit) : bool :=
  match x with ExitJson _ => true | FailJson _ _ => false end.

(** ** The monad *)

Inductive res (A : Type) :=
| Ret (a : A)          (* normal completion                         *)
| Raise (e : exn)      (* an exception is propagating               *)
| Exit (x : exit).     (* sys.exit() from exit_json / fail_json     *)
Arguments Ret {A} a.
Arguments Raise {A} e.
Arguments Exit {A} x.

Definition M (A : Type) : Type := world → res A * world.

Definition ret {A} (a : A) : M A := λ w, (Ret a, w).
Definition raise {A} (e : exn) : M A := λ w, (Raise e, w).
Definition bind {A B} (c : M A) (k : A → M B) : M B :=
  λ w, match c w with
       | (Ret a, w') => k a w'
       | (Raise e, w') => (Raise e, w')
       | (Exit x, w') => (Exit x, w')
       end.

(** stdpp's monad notations: [x ← c; k] and [c;; k]. *)
#[global] Instance M_ret : MRet M := @ret.
#[global] Instance M_bind : MBind M := λ A B k c, bind c k.

(** [try: body except <catches> as e: handler e].  An exit is not an
    exception of class [Exception] and passes through every handler. *)
Definition try_except {A} (body : M A) (catches : exn → bool)
    (handler : exn → M A) : M A :=
  λ w, match body w with
       | (Raise e, w') => if catches e then handler e w' else (Raise e, w')
       | other => other
       end.

Definition exit_json {A} (r : result) : M A := λ w, (Exit (ExitJson r), w).
Definition fail_json {A} (msg : string) (r : result) : M A :=
  λ w, (Exit (FailJson msg r), w).

(** [when c body]: the statement [if c: body] with no else branch. *)
Definition when (c : bool) (body : M unit) : M unit :=
  if c then body else ret tt.

(** ** Text and bytes *)

(** A Python [str] is represented by its UTF-8 form, a lone surrogate (which
    a [str] may hold and UTF-8 cannot encode) by the three bytes of its
    generalised form.  So a [str] can be encoded exactly when its
    representation is well-formed UTF-8, and bytes can be decoded exactly
    when they are; encoding and decoding then change nothing. *)

(** Where the decoder stands: between characters, or [more] continuation
    bytes into one, the next of which must lie in [lo..hi]. *)
Inductive utf8_state :=
| Between
| Within (more : nat) (lo hi : N).

Definition in_range (lo hi b : N) : bool := (lo <=? b)%N && (b <=? hi)%N.

(** The well-formed byte sequences of UTF-8 (Unicode, table 3-7). *)
Definition utf8_step (st : utf8_state) (b : N) : option utf8_state :=
  match st with
  | Between =>
      if in_range 0 127 b then Some Between
      else if in_range 194 223 b then Some (Within 0 128 191)
      else if in_range 224 224 b then Some (Within 1 160 191)
      else if in_range 225 236 b || in_range 238 239 b then Some (Within 1 128 191)
      else if in_range 237 237 b then Some (Within 1 128 159)
      else if in_range 240 240 b then Some (Within 2 144 191)
      else if in_range 241 243 b then Some (Within 2 128 191)
      else if in_range 244 244 b then Some (Within 2 128 143)
      else None
  | Within more lo hi =>
      if in_range lo hi b then
        Some (match more with O => Between | S k => Within k 128 191 end)
      else None
  end.

Fixpoint utf8_from (st : utf8_state) (s : string) : bool :=
  match s with
  | EmptyString => match st with Between => true | Within _ _ _ => false end
  | String c rest =>
      match utf8_step st (N_of_ascii c) with
      | Some st' => utf8_from st' rest
      | None => false
      end
  end.

Definition utf8_valid (s : string) : bool := utf8_from Between s.

Definition CR : ascii := ascii_of_N 13.
Definition LF : ascii := ascii_of_N 10.

(** What a text-mode read does to line endings ([newline=None]): CR LF and
    a lone CR both become LF. *)
Fixpoint universal_newlines (s : string) : string :=
  match s with
  | EmptyString => ""
  | String c rest =>
      if bool_decide (c = CR) then
        match rest with
        | String c' rest' =>
            if bool_decide (c' = LF) then String LF (universal_newlines rest')
            else String LF (universal_newlines rest)
        | EmptyString => String LF ""
        end
      else String c (universal_newlines rest)
  end.

(** [UnicodeDecodeError] and [UnicodeEncodeError] are [ValueError]s, hence
    no [OSError]s.  Their text (codec, position, reason) is cut short: no
    handler of the module ever sees it. *)
Definition UnicodeDecodeError : exn := Error "'utf-8' codec can't decode bytes".
Definition UnicodeEncodeError : exn := Error "'utf-8' codec can't encode characters".

(** ** Permission bits *)

Definition octal_digit (c : ascii) : option N :=
  let n := N_of_ascii c in
  if in_range 48 55 n then Some (n - 48)%N else None.

Fixpoint octal_from (acc : N) (s : string) : option N :=
  match s with
  | EmptyString => Some acc
  | String c rest =>
      match octal_digit c with
      | Some d => octal_from (8 * acc + d)%N rest
      | None => None
      end
  end.

(** The number an octal mode string such as ["0644"] or ["644"] denotes. *)
Definition mode_value (s : string) : option N :=
  match s with EmptyString => None | _ => octal_from 0 s end.

Definition digit (n : N) : ascii := ascii_of_N (48 + n mod 8).

(** A mode written with four octal digits. *)
Definition mode_string (n : N) : string :=
  String (digit (n / 512)) (String (digit (n / 64))
    (String (digit (n / 8)) (String (digit n) ""))).

(** The process's umask, 022, and what it leaves of a mode given to
    [open], [os.mkdir] or [os.makedirs]. *)
Definition umask : N := 18.
Definition masked (mode : N) : N := N.ldiff mode umask.

(** Two mode strings that denote the same permission bits. *)
Definition same_mode (a b : string) : bool :=
  match mode_value a, mode_value b with
  | Some x, Some y => bool_decide (x = y)
  | _, _ => bool_decide (a = b)
  end.

(** Whether the process holds permission [bit] (2 read, 1 write, 0 search)
    on a node with attributes [st]: root holds every permission; otherwise
    the owner's, the group's or the others' bits decide.  [old] stands
    where the mode is no octal number. *)
Definition granted (bit : N) (st : attrs) (w : world) (old : bool) : bool :=
  if bool_decide (euser w = "root") then true
  else match mode_value (st_mode st) with
       | Some v =>
           N.testbit v
             ((if bool_decide (st_owner st = euser w) then 6
               else if bool_decide (st_group st = egroup w) then 3
               else 0) + bit)
       | None => old
       end.

(** [chown] / [chmod]: the node with new attributes, and with the access
    the process has under them. *)
Definition chattr (w : world) (n : node) (st : attrs) : node :=
  match n with
  | File d _ r wr => File d st (granted 2 st w r) (granted 1 st w wr)
  | Dir _ wr => Dir st (granted 1 st w wr && granted 0 st w true)
  end.

(** ** Operating-system primitives (Python's [os], [os.path] and [open]) *)

Definition is_sep (c : ascii) : bool := bool_decide (c = "/"%char).

(** [p[:p.rfind('/') + 1]] *)
Fixpoint upto_last_sep (p : string) : string :=
  match p with
  | EmptyString => ""
  | String c rest =>
      match upto_last_sep rest with
      | EmptyString => if is_sep c then String c "" else ""
      | h => String c h
      end
  end.

(** [s == '/' * len(s)] *)
Fixpoint all_sep (s : string) : bool :=
  match s with
  | EmptyString => true
  | String c rest => is_sep c && all_sep rest
  end.

(** [s.rstrip('/')] *)
Fixpoint rstrip_sep (s : string) : string :=
  match s with
  | EmptyString => ""
  | String c rest =>
      match rstrip_sep rest with
      | EmptyString => if is_sep c then "" else String c ""
      | r => String c r
      end
  end.

(** [s.endswith('/')] *)
Fixpoint ends_with_sep (s : string) : bool :=
  match s with
  | EmptyString => false
  | String c EmptyString => is_sep c
  | String _ rest => ends_with_sep rest
  end.

(** [os.path.dirname] (posixpath). *)
Definition os_path_dirname (p : string) : string :=
  let head := upto_last_sep p in
  if negb (bool_decide (head = "")) && negb (all_sep head)
  then rstrip_sep head else head.

(** [os.path.exists]: true for files and directories alike. *)
Definition os_path_exists (p : string) : M bool :=
  λ w, (Ret (bool_decide (is_Some (fs w !! p))), w).

(** [with open(p, 'r') as f: f.read()]: what can be opened is decoded, and
    its line endings are translated. *)
Definition open_read (p : string) : M string :=
  λ w, match fs w !! p with
       | Some (File d _ true _) =>
           if utf8_valid d then (Ret (universal_newlines d), w)
           else (Raise UnicodeDecodeError, w)
       | Some (File _ _ false _) => (Raise (EACCES p), w)
       | Some (Dir _ _) => (Raise (EISDIR p), w)
       | None => (Raise (ENOENT p), w)
       end.

(** What creating an entry named [p] needs of its parent directory.  A bare
    name (empty dirname) lives in the working directory, taken writable. *)
Definition check_parent (p : string) (w : world) : option exn :=
  let d := os_path_dirname p in
  if bool_decide (d = "") then None
  else match fs w !! d with
       | Some (Dir _ true) => None
       | Some (Dir _ false) => Some (EACCES p)
       | Some (File _ _ _ _) => Some (ENOTDIR p)
       | None => Some (ENOENT p)
       end.

(** [open(p, 'w')]: the attributes and readability of the file that is
    opened, truncated, or created with mode 0666 less the umask; or the
    error.  No file has the empty name, and none a name that ends in a
    separator. *)
Definition open_for_writing (p : string) (w : world) : exn + attrs * bool :=
  if bool_decide (p = "") then inl (ENOENT p)
  else if ends_with_sep p then inl (EISDIR p)
  else match fs w !! p with
       | Some (File _ st r true) => inr (st, r)
       | Some (File _ _ _ false) => inl (EACCES p)
       | Some (Dir _ _) => inl (EISDIR p)
       | None =>
           match check_parent p w with
           | Some e => inl e
           | None => inr (Attrs (euser w) (egroup w) (mode_string (masked 438)), true)
           end
       end.

(** [with open(p, 'w') as f: f.write(c)]: [open] leaves the file empty, then
    [write] encodes the text and stores it (on POSIX a written line feed
    stays a line feed).  Text that cannot be encoded raises at [write], the
    file being empty by then. *)
Definition open_write (p c : string) : M unit :=
  λ w, match open_for_writing p w with
       | inl e => (Raise e, w)
       | inr (st, r) =>
           if utf8_valid c
           then (Ret tt, with_fs w (<[p := File c st r true]> (fs w)))
           else (Raise UnicodeEncodeError,
                 with_fs w (<[p := File "" st r true]> (fs w)))
       end.

(** [os.mkdir(name, mode)] as [os.makedirs(..., exist_ok=True)] calls it: an
    [OSError] is swallowed when [name] already is a directory.  The new
    directory has [mode] less the umask. *)
Definition mkdir_exist_ok (name : string) (mode : N) : M unit :=
  λ w, match fs w !! name with
       | Some (Dir _ _) => (Ret tt, w)
       | Some (File _ _ _ _) => (Raise (EEXIST name), w)
       | None =>
           match check_parent name w with
           | Some e => (Raise e, w)
           | None =>
               (Ret tt,
                with_fs w (<[name := Dir (Attrs (euser w) (egroup w)
                                            (mode_string (masked mode))) true]>
                             (fs w)))
           end
       end.

Definition FileExistsError (e : exn) : bool :=
  match e with OSError 17 _ _ => true | _ => false end.

(** [os.makedirs(name, mode, exist_ok=True)], for a [name] without trailing
    separator (as [os.path.dirname] returns it): when the parent is missing
    it is created first, with the default mode 0777, a [FileExistsError] of
    that recursive call being ignored; then the leaf is made.  [fuel]
    bounds the climb; the length of [name] is always enough, since every
    proper dirname is shorter, and with no fuel left the leaf is simply
    tried. *)
Fixpoint makedirs_from (fuel : nat) (name : string) (mode : N) : M unit :=
  let head := os_path_dirname name in
  match fuel with
  | S k =>
      when (negb (bool_decide (head = "")) && negb (bool_decide (head = name)))
        (head_exists ← os_path_exists head;
         when (negb head_exists)
           (try_except (makedirs_from k head 511)
              FileExistsError (λ _, mret tt)))
  | O => mret tt
  end;;
  mkdir_exist_ok name mode.

Definition os_makedirs (name : string) (mode : N) : M unit :=
  makedirs_from (String.length name) name mode.

(** ** The host runtime: [AnsibleModule] *)

(** [module.params], with the common file arguments the module consumes. *)
Record params := Params {
  p_path    : string;
  p_content : string;
  p_owner   : option string;
  p_group   : option string;
  p_mode    : option string;
  p_force   : bool;
  p_backup  : bool
}.

Record AnsibleModule := AnsibleModule_ {
  module_params : params;
  check_mode    : bool;
  _diff         : bool
}.

(** [module.warn(msg)] *)
Definition with_warning (w : world) (msg : string) : world :=
  {| fs := fs w; pid := pid w; now := now w; euser := euser w;
     egroup := egroup w; warnings := warnings w ++ [msg] |}.

Definition warn (msg : string) : M unit :=
  λ w, (Ret tt, with_warning w msg).

(** Modelled from the spec: [module.backup_local] is a helper of the host
    runtime, not of this repository.  It copies the existing file, with its
    attributes, to the sibling path [<path>.<pid>.<timestamp>~] and returns
    that path (the empty string when there is nothing to copy); a copy that
    cannot be made raises. *)
Definition backup_local (fn : string) : M string :=
  λ w, match fs w !! fn with
       | None => (Ret "", w)
       | Some (Dir _ _) => (Raise (EISDIR fn), w)
       | Some (File _ _ false _) => (Raise (EACCES fn), w)
       | Some (File d st true _) =>
           let backupdest := fn +:+ "." +:+ pretty (pid w) +:+ "." +:+ now w in
           let copied := with_fs w (<[backupdest := File d st true true]> (fs w)) in
           match fs w !! backupdest with
           | Some (File _ _ _ true) => (Ret backupdest, copied)
           | Some (File _ _ _ false) => (Raise (EACCES backupdest), w)
           | Some (Dir _ _) => (Raise (EISDIR backupdest), w)
           | None =>
               match check_parent backupdest w with
               | Some e => (Raise e, w)
               | None => (Ret backupdest, copied)
               end
           end
       end.

(** What [module.load_file_common_arguments(module.params)] keeps. *)
Record file_args := FileArgs {
  fa_path  : string;
  fa_owner : option string;
  fa_group : option string;
  fa_mode  : option string
}.

Definition load_file_common_arguments (p : params) : file_args :=
  {| fa_path := p_path p; fa_owner := p_owner p;
     fa_group := p_group p; fa_mode := p_mode p |}.

#[global] Instance attrs_eq_dec : EqDecision attrs.
Proof. solve_decision. Defined.

(** The attributes asked for: an absent argument leaves the current value,
    and so does a mode that denotes the permission bits the node has. *)
Definition desired_attrs (fa : file_args) (st : attrs) : attrs :=
  {| st_owner := default (st_owner st) (fa_owner fa);
     st_group := default (st_group st) (fa_group fa);
     st_mode  := match fa_mode fa with
                 | Some mode => if same_mode mode (st_mode st)
                                then st_mode st else mode
                 | None => st_mode st
                 end |}.

(** Modelled from the spec: [module.set_fs_attributes_if_different] is a
    helper of the host runtime, not of this repository.  It applies owner,
    group and mode where specified and different from the current ones
    (modes are compared as octal numbers), and returns [True] when
    [changed] was already true or an attribute was altered. *)
Definition set_fs_attributes_if_different (fa : file_args) (changed : bool) : M bool :=
  λ w, match fs w !! fa_path fa with
       | None => (Ret changed, w)
       | Some n =>
           let st' := desired_attrs fa (node_attrs n) in
           if bool_decide (st' = node_attrs n) then (Ret changed, w)
           else (Ret true, with_fs w (<[fa_path fa := chattr w n st']> (fs w)))
       end.

(** ** The module *)

(** The [try] block of [write_file]; 493 is [0o755]. *)
Definition write_file_try (path content : string) : M (bool * option string) :=
  let directory := os_path_dirname path in
  missing ←
    (if negb (bool_decide (directory = "")) then
       directory_exists ← os_path_exists directory;
       mret (negb directory_exists)
     else mret false);
  when missing (os_makedirs directory 493);;
  open_write path content;;
  mret (true, None).

(** [write_file(module, path, content)] *)
Definition write_file (path content : string) : M (bool * option string) :=
  try_except
    (write_file_try path content)
    IOError_OSError
    (λ e, mret (false, Some (str e))).

(** [get_file_diff(module, path, content)]: the [return] inside the [try]
    gives the pair; falling out of the [if], or out of the handler's
    [pass], reaches the final [return None]. *)
Definition get_file_diff (path content : string) : M (option diff) :=
  try_except
    (path_exists ← os_path_exists path;
     if path_exists : bool then
       old_content ← open_read path;
       mret (Some {| before := old_content; after := content |})
     else mret None)
    IOError_OSError
    (λ _, mret None).

(** [create_backup(module, path)] *)
Definition create_backup (path : string) : M (option string) :=
  try_except
    (path_exists ← os_path_exists path;
     if path_exists : bool then
       backup_file ← backup_local path;
       mret (Some backup_file)
     else mret None)
    Exception
    (λ e, warn ("Не удалось создать резервную копию: " +:+ str e);;
          mret None).

(** How an f-string renders [error_msg], which is a [str] or [None]. *)
Definition format_opt (s : option string) : string := default "None" s.

(** Python truthiness of an optional string: [None] and [''] are false. *)
Definition truthy (s : option string) : bool :=
  match s with Some EmptyString | None => false | Some _ => true end.

(** The [result] dictionary as [run_module] initialises it. *)
Definition initial_result : result :=
  {| r_changed := false; r_path := ""; r_content := "";
     r_diff := None; r_backup_file := None |}.

(** [run_module()], the module object and its parameters being given. *)
Definition run_module (module : AnsibleModule) : M Empty_set :=
  let result := initial_result in
  let path := p_path (module_params module) in
  let content := p_content (module_params module) in
  let force := p_force (module_params module) in
  let backup := p_backup (module_params module) in
  file_exists ← os_path_exists path;
  when (negb force && file_exists)
    (fail_json ("Файл '" +:+ path +:+ "' уже существует и force=no") result);;
  existing_content ←
    (if file_exists : bool then
       try_except
         (data ← open_read path; mret (Some data))
         IOError_OSError
         (λ e, fail_json ("Не удалось прочитать существующий файл '" +:+ path
                          +:+ "': " +:+ str e) result)
     else mret None);
  let result :=
    if negb file_exists || negb (bool_decide (existing_content = Some content))
    then set_changed result true else result in
  let result := set_path result path in
  let result := set_content result content in
  result ←
    (if _diff module || check_mode module then
       d ← get_file_diff path content; mret (set_diff result d)
     else mret result);
  when (check_mode module) (exit_json result);;
  when (negb (r_changed result))
    (let file_args := load_file_common_arguments (module_params module) in
     attrs_changed ← set_fs_attributes_if_different file_args (r_changed result);
     let result := if attrs_changed : bool then set_changed result true else result in
     exit_json result);;
  result ←
    (if backup && file_exists then
       backup_file ← create_backup path;
       mret (if truthy backup_file
             then set_backup_file result (default "" backup_file)
             else result)
     else mret result);
  '(success, error_msg) ← write_file path content;
  when (negb success)
    (fail_json ("Не удалось записать файл '" +:+ path +:+ "': "
                +:+ format_opt error_msg) result);;
  let file_args := load_file_common_arguments (module_params module) in
  attrs_changed ← set_fs_attributes_if_different file_args (r_changed result);
  let result := if attrs_changed : bool then set_changed result true else result in
  exit_json result.

(** ** Vocabulary of the statements *)

(** [keeps w w']: every entry of [w] is still there, unaltered, in [w'],
    and nothing but the file system differs. *)
Definition keeps (w w' : world) : Prop :=
  (∀ k n, fs w !! k = Some n → fs w' !! k = Some n) ∧
  pid w' = pid w ∧ now w' = now w ∧ euser w' = euser w ∧
  egroup w' = egroup w ∧ warnings w' = warnings w.

(** An operation of the file layer either returns or raises an [OSError];
    it never terminates the process. *)
Definition os_outcome {A} (r : res A) : Prop :=
  match r with
  | Ret _ => True
  | Raise e => IOError_OSError e = true
  | Exit _ => False
  end.

(** [keeps_but p w w']: as [keeps], except that the entry at [p] may have
    been created or rewritten. *)
Definition keeps_but (p : string) (w w' : world) : Prop :=
  (∀ k n, k ≠ p → fs w !! k = Some n → fs w' !! k = Some n) ∧
  pid w' = pid w ∧ now w' = now w ∧ euser w' = euser w ∧
  egroup w' = egroup w ∧ warnings w' = warnings w.

(** Whether the file arguments ask for attributes other than those of the
    node now at their path. *)
Definition attrs_differ (fa : file_args) (w : world) : bool :=
  match fs w !! fa_path fa with
  | Some n => negb (bool_decide (desired_attrs fa (node_attrs n) = node_attrs n))
  | None => false
  end.

(** The path [backup_local] copies to. *)
Definition backup_path (fn : string) (w : world) : string :=
  fn +:+ "." +:+ pretty (pid w) +:+ "." +:+ now w.

Definition backup_warning (e : exn) : string :=
  "Не удалось создать резервную копию: " +:+ str e.

(** The three failure messages of [run_module], as its f-strings build
    them. *)
Definition force_message (path : string) : string :=
  "Файл '" +:+ path +:+ "' уже существует и force=no".

Definition read_message (path : string) (e : exn) : string :=
  "Не удалось прочитать существующий файл '" +:+ path +:+ "': " +:+ str e.

Definition write_message (path : string) (e : exn) : string :=
  "Не удалось записать файл '" +:+ path +:+ "': " +:+ str e.

(** The text a read of [p] returns, if it returns. *)
Definition text_at (w : world) (p : string) : option string :=
  match open_read p w with
  | (Ret text, _) => Some text
  | _ => None
  end.

(** [result] as it stands once the change has been decided and the diff
    captured (the statement before the check-mode exit). *)
Definition reported (m : AnsibleModule) (w : world) : result :=
  let path := p_path (module_params m) in
  let content := p_content (module_params m) in
  {| r_changed := negb (bool_decide (text_at w path = Some content));
     r_path := path;
     r_content := content;
     r_diff := if _diff m || check_mode m
               then Some ((λ text, Diff text content) <$> text_at w path) else None;
     r_backup_file := None |}.

(** The run gets past the force check and the read of the existing file. *)
Definition passes_gates (m : AnsibleModule) (w : world) : Prop :=
  let path := p_path (module_params m) in
  fs w !! path = None ∨
  (p_force (module_params m) = true ∧
   ∃ d st wr, fs w !! path = Some (File d st true wr)).

(** Text that a text-mode read returns exactly as it is stored: UTF-8 with
    no carriage return in it. *)
Definition plain_text (d : string) : Prop :=
  utf8_valid d = true ∧ universal_newlines d = d.

(** The node at [p] is a regular file the process may read. *)
Definition readable (w : world) (p : string) : Prop :=
  ∃ d st wr, fs w !! p = Some (File d st true wr).

(** The run gets past the force check, and the read of the existing file
    returns. *)
Definition past_gates (m : AnsibleModule) (w : world) : Prop :=
  let path := p_path (module_params m) in
  fs w !! path = None ∨
  (p_force (module_params m) = true ∧ ∃ text, open_read path w = (Ret text, w)).

(** The run reaches the write step: not in check mode, past both gates,
    and the target is absent or what was read from it is not the requested
    content. *)
Definition needs_write (m : AnsibleModule) (w : world) : Prop :=
  let path := p_path (module_params m) in
  let content := p_content (module_params m) in
  check_mode m = false ∧
  (fs w !! path = None ∨
   (p_force (module_params m) = true ∧
    ∃ text, open_read path w = (Ret text, w) ∧ text ≠ content)).

(** The backup statement of [run_module], and the statements from the call
    of [write_file] to the end, each as it stands in the function. *)
Definition backup_step (m : AnsibleModule) (file_exists : bool) (r : result) : M result :=
  let path := p_path (module_params m) in
  if p_backup (module_params m) && file_exists then
    backup_file ← create_backup path;
    mret (if truthy backup_file
          then set_backup_file r (default "" backup_file)
          else r)
  else mret r.

Definition write_step (m : AnsibleModule) (r : result) : M Empty_set :=
  let path := p_path (module_params m) in
  let content := p_content (module_params m) in
  '(success, error_msg) ← write_file path content;
  when (negb success)
    (fail_json ("Не удалось записать файл '" +:+ path +:+ "': "
                +:+ format_opt error_msg) r);;
  let file_args := load_file_common_arguments (module_params m) in
  attrs_changed ← set_fs_attributes_if_different file_args (r_changed r);
  let r := if attrs_changed : bool then set_changed r true else r in
  exit_json r.

(** The same invocation with check mode switched on or off. *)
Definition with_check_mode (m : AnsibleModule) (b : bool) : AnsibleModule :=
  {| module_params := module_params m; check_mode := b; _diff := _diff m |}.

(** What a run ended with, if it ended by [exit_json] or [fail_json]. *)
Definition outcome (x : res Empty_set * world) : option exit :=
  match fst x with Exit e => Some e | _ => None end.

Abbreviation path_of m := (p_path (module_params m)).
Abbreviation content_of m := (p_content (module_params m)).
Abbreviation file_args_of m := (load_file_common_arguments (module_params m)).

(** ** Sample machines and invocations *)

Definition dir_attrs : attrs := Attrs "root" "root" "0755".
Definition file_attrs_0644 : attrs := Attrs "root" "root" "0644".

(** A machine whose process runs as [user]. *)
Definition machine_of (user : string) (files : gmap string node) : world :=
  {| fs := files; pid := 12345; now := "2024-01-01@12:00:00~";
     euser := user; egroup := user; warnings := [] |}.

Definition machine (files : gmap string node) : world := machine_of "root" files.

Definition tmp_dirs : gmap string node :=
  <["/tmp" := Dir dir_attrs true]> (<["/" := Dir dir_attrs true]> ∅).

(** [/tmp] is there and writable; [/tmp/a.txt] is absent. *)
Definition tmp_empty : world := machine tmp_dirs.

(** [/tmp/a.txt] holds "hello", mode 0644. *)
Definition tmp_hello : world :=
  with_fs tmp_empty
    (<["/tmp/a.txt" := File "hello" file_attrs_0644 true true]> (fs tmp_empty)).

(** The process is [deploy] and owns [/tmp/a.txt], which holds "hello";
    [/tmp] is root's and takes no new entry from it: a backup copy cannot
    be created next to the file. *)
Definition tmp_hello_locked_dir : world :=
  machine_of "deploy"
    (<["/tmp/a.txt" := File "hello" (Attrs "deploy" "deploy" "0644") true true]>
       (<["/tmp" := Dir dir_attrs false]> (<["/" := Dir dir_attrs false]> ∅))).

(** The directories as a process that is not root finds them: [/tmp] is
    open to everyone, [/] takes no new entry. *)
Definition shared_tmp_dirs : gmap string node :=
  <["/tmp" := Dir (Attrs "root" "root" "1777") true]>
    (<["/" := Dir dir_attrs false]> ∅).


(** The process is [deploy]; [/tmp/a.txt] is root's, mode 0600: it cannot be
    opened at all. *)
Definition tmp_hello_unreadable : world :=
  machine_of "deploy"
    (<["/tmp/a.txt" := File "hello" (Attrs "root" "root" "0600") false false]>
       shared_tmp_dirs).

(** A file whose two lines end in CR LF. *)
Definition crlf_text : string :=
  String "a" (String CR (String LF (String "b" (String CR (String LF ""))))).

(** [/tmp/a.txt] holds [crlf_text]. *)
Definition tmp_crlf : world :=
  with_fs tmp_empty
    (<["/tmp/a.txt" := File crlf_text file_attrs_0644 true true]> (fs tmp_empty)).

(** The same two lines, ending in LF. *)
Definition lf_text : string :=
  String "a" (String LF (String "b" (String LF ""))).

(** Byte 0xFF, which no UTF-8 text contains; as a [str], a text that
    cannot be encoded. *)
Definition not_utf8 : string := String (ascii_of_N 255) "".

(** [/tmp/a.txt] holds the byte 0xFF. *)
Definition tmp_binary : world :=
  with_fs tmp_empty
    (<["/tmp/a.txt" := File not_utf8 file_attrs_0644 true true]> (fs tmp_empty)).

(** The process is [deploy] and owns [/tmp/a.txt], which holds "hello". *)
Definition tmp_hello_deploy : world :=
  machine_of "deploy"
    (<["/tmp/a.txt" := File "hello" (Attrs "deploy" "deploy" "0644") true true]>
       shared_tmp_dirs).

(** [create_file: path=/tmp/a.txt content=<content> mode=<mode>] *)
Definition request (content : string) (mode : option string)
    (force backup check diff_on : bool) : AnsibleModule :=
  {| module_params :=
       {| p_path := "/tmp/a.txt"; p_content := content; p_owner := None;
          p_group := None; p_mode := mode; p_force := force; p_backup := backup |};
     check_mode := check; _diff := diff_on |}.

(** ** Vocabulary of the further properties *)

(** The attributes a write to [p] starts from: those of the node now at
    [p], or, when there is none, those a file created by the process gets. *)
Definition prior_attrs (w : world) (p : string) : attrs :=
  match fs w !! p with
  | Some n => node_attrs n
  | None => Attrs (euser w) (egroup w) (mode_string (masked 438))
  end.

(** [grows_but ps w w']: no entry of [w] is missing from [w'], and the
    entries at paths other than those of [ps] are unaltered. *)
Definition grows_but (ps : list string) (w w' : world) : Prop :=
  ∀ k n, fs w !! k = Some n →
    is_Some (fs w' !! k) ∧ (¬ In k ps → fs w' !! k = Some n).

(** * Verification *)

(** ** Stepping the monad *)

Lemma bind_Ret {A B} (c : M A) (k : A → M B) w a w' :
  c w = (Ret a, w') → (c ≫= k) w = k a w'.
Proof. intros H. unfold mbind, M_bind, bind. by rewrite H. Qed.

Lemma bind_Raise {A B} (c : M A) (k : A → M B) w e w' :
  c w = (Raise e, w') → (c ≫= k) w = (Raise e, w').
Proof. intros H. unfold mbind, M_bind, bind. by rewrite H. Qed.

Lemma try_Ret {A} (body : M A) catches handler w a w' :
  body w = (Ret a, w') → try_except body catches handler w = (Ret a, w').
Proof. intros H. unfold try_except. by rewrite H. Qed.

Lemma try_caught {A} (body : M A) catches handler w e w' :
  body w = (Raise e, w') → catches e = true →
  try_except body catches handler w = handler e w'.
Proof. intros H Hc. unfold try_except. by rewrite H, Hc. Qed.

(** ** Frames: what an operation leaves alone *)

Lemma keeps_refl w : keeps w w.
Proof. by repeat split. Qed.

Lemma keeps_trans w1 w2 w3 : keeps w1 w2 → keeps w2 w3 → keeps w1 w3.
Proof.
  intros (F1 & ? & ? & ? & ? & ?) (F2 & ? & ? & ? & ? & ?).
  repeat split; [auto | congruence ..].
Qed.

Lemma keeps_insert_fresh w k n :
  fs w !! k = None → keeps w (with_fs w (<[k := n]> (fs w))).
Proof.
  intros Hk. repeat split; simpl.
  intros k' n' Hk'. rewrite lookup_insert_ne; [done | congruence].
Qed.

Lemma check_parent_OSError p w e :
  check_parent p w = Some e → IOError_OSError e = true.
Proof.
  unfold check_parent. case_bool_decide; [done |].
  destruct (fs w !! os_path_dirname p) as [[? ? ? ?|? []]|];
    intros [= <-]; done.
Qed.

Lemma mkdir_exist_ok_keeps name mode w r w' :
  mkdir_exist_ok name mode w = (r, w') → keeps w w' ∧ os_outcome r.
Proof.
  unfold mkdir_exist_ok.
  destruct (fs w !! name) as [[? ? ? ?|? ?]|] eqn:Hn.
  - intros [= <- <-]. split; [apply keeps_refl | done].
  - intros [= <- <-]. split; [apply keeps_refl | done].
  - destruct (check_parent name w) as [e|] eqn:Hp; intros [= <- <-].
    + split; [apply keeps_refl | by eapply check_parent_OSError].
    + split; [by apply keeps_insert_fresh | done].
Qed.

Lemma makedirs_from_keeps fuel : ∀ name mode w r w',
  makedirs_from fuel name mode w = (r, w') → keeps w w' ∧ os_outcome r.
Proof.
  induction fuel as [|k IH]; intros name mode w r w'; simpl.
  - rewrite (bind_Ret _ _ w tt w) by done. apply mkdir_exist_ok_keeps.
  - unfold when.
    destruct (negb (bool_decide (os_path_dirname name = ""))
              && negb (bool_decide (os_path_dirname name = name))).
    + unfold os_path_exists at 1.
      unfold mbind at 1 2, M_bind, bind.
      destruct (bool_decide (is_Some (fs w !! os_path_dirname name))); simpl.
      * apply mkdir_exist_ok_keeps.
      * unfold try_except.
        destruct (makedirs_from k (os_path_dirname name) 511 w)
          as [[[]|e|x] w1] eqn:Hrec;
          destruct (IH _ _ _ _ _ Hrec) as [K1 O1]; simpl in O1; [| | done].
        -- intros H. destruct (mkdir_exist_ok_keeps _ _ _ _ _ H) as [K2 O2].
           split; [by eapply keeps_trans | done].
        -- destruct (FileExistsError e); simpl.
           ++ intros H. destruct (mkdir_exist_ok_keeps _ _ _ _ _ H) as [K2 O2].
              split; [by eapply keeps_trans | done].
           ++ intros [= <- <-]. done.
    + rewrite (bind_Ret _ _ w tt w) by done. apply mkdir_exist_ok_keeps.
Qed.

Lemma os_makedirs_keeps name mode w r w' :
  os_makedirs name mode w = (r, w') → keeps w w' ∧ os_outcome r.
Proof. apply makedirs_from_keeps. Qed.

(** ** The climb of [os.makedirs] ends: more fuel changes nothing *)

Lemma length_zero (s : string) : String.length s = 0 → s = "".
Proof. by destruct s. Qed.

Lemma upto_last_sep_length p :
  (String.length (upto_last_sep p) ≤ String.length p)%nat ∧
  (String.length (upto_last_sep p) = String.length p → upto_last_sep p = p).
Proof.
  induction p as [|c p [IH1 IH2]]; simpl; [done |].
  destruct (upto_last_sep p) as [|c' h] eqn:Hh.
  - destruct (is_sep c); simpl in *; split; try lia.
    intros H. assert (String.length p = 0) as Hp by lia.
    by rewrite (length_zero _ Hp).
  - simpl in *. split; [lia |]. intros H. rewrite IH2; [done | lia].
Qed.

Lemma rstrip_sep_length s :
  (String.length (rstrip_sep s) ≤ String.length s)%nat ∧
  (String.length (rstrip_sep s) = String.length s → rstrip_sep s = s).
Proof.
  induction s as [|c s [IH1 IH2]]; simpl; [done |].
  destruct (rstrip_sep s) as [|c' r] eqn:Hr.
  - destruct (is_sep c); simpl in *; split; try lia.
    intros H. assert (String.length s = 0) as Hs by lia.
    by rewrite (length_zero _ Hs).
  - simpl in *. split; [lia |]. intros H. rewrite IH2; [done | lia].
Qed.

Lemma dirname_shorter p :
  os_path_dirname p ≠ p →
  (String.length (os_path_dirname p) < String.length p)%nat.
Proof.
  unfold os_path_dirname.
  destruct (upto_last_sep_length p) as [U1 U2].
  destruct (rstrip_sep_length (upto_last_sep p)) as [R1 R2].
  destruct (_ && _); intros Hne.
  - destruct (decide (String.length (rstrip_sep (upto_last_sep p)) = String.length p))
      as [Heq|]; [| lia].
    exfalso. apply Hne. rewrite R2 by lia. apply U2. lia.
  - destruct (decide (String.length (upto_last_sep p) = String.length p)) as [Heq|]; [| lia].
    exfalso. by apply Hne, U2.
Qed.

Lemma makedirs_from_fuel : ∀ n1 n2 name mode,
  (String.length name ≤ n1)%nat → (String.length name ≤ n2)%nat →
  makedirs_from n1 name mode = makedirs_from n2 name mode.
Proof.
  induction n1 as [|k1 IH]; intros [|k2] name mode' H1 H2; simpl; try done.
  - rewrite (length_zero name) by lia. done.
  - rewrite (length_zero name) by lia. done.
  - destruct (negb (bool_decide (os_path_dirname name = ""))
              && negb (bool_decide (os_path_dirname name = name))) eqn:Hc; [| done].
    apply andb_true_iff in Hc as [_ Hc]. apply negb_true_iff, bool_decide_eq_false in Hc.
    pose proof (dirname_shorter name Hc).
    rewrite (IH k2 (os_path_dirname name) 511%N); [done | lia | lia].
Qed.

Lemma os_makedirs_enough_fuel n name mode :
  (String.length name ≤ n)%nat →
  makedirs_from n name mode = os_makedirs name mode.
Proof. intros H. by apply makedirs_from_fuel. Qed.

Lemma keeps_keeps_but p w w' : keeps w w' → keeps_but p w w'.
Proof. intros (F & ?). split; [intros k n _; apply F | done]. Qed.

Lemma keeps_but_trans p w1 w2 w3 :
  keeps_but p w1 w2 → keeps_but p w2 w3 → keeps_but p w1 w3.
Proof.
  intros (F1 & ? & ? & ? & ? & ?) (F2 & ? & ? & ? & ? & ?).
  repeat split; [auto | congruence ..].
Qed.

Lemma keeps_but_insert p w n : keeps_but p w (with_fs w (<[p := n]> (fs w))).
Proof.
  repeat split; simpl. intros k n' Hk Hl. by rewrite lookup_insert_ne.
Qed.

Lemma file_data_insert w p c st r wr :
  file_data (with_fs w (<[p := File c st r wr]> (fs w))) p = Some c.
Proof. unfold file_data; simpl. by rewrite lookup_insert_eq. Qed.

(** ** The text layer *)

(** A read that returns leaves the machine alone, and returns the decoded
    bytes of a readable regular file with the line endings translated. *)
Lemma open_read_Ret p w text w' :
  open_read p w = (Ret text, w') →
  w' = w ∧
  ∃ d st wr, fs w !! p = Some (File d st true wr) ∧
             utf8_valid d = true ∧ text = universal_newlines d.
Proof.
  unfold open_read.
  destruct (fs w !! p) as [[d st [] wr|? ?]|]; try done.
  destruct (utf8_valid d) eqn:Hv; [| done].
  intros [= <- <-]. split; [done |]. eauto 10.
Qed.

(** A read that raises leaves the machine alone too; what it raises is an
    [OSError], unless the file could be opened and its bytes are no
    UTF-8. *)
Lemma open_read_Raise p w e w' :
  open_read p w = (Raise e, w') →
  w' = w ∧
  (IOError_OSError e = true ∨
   (e = UnicodeDecodeError ∧
    ∃ d st wr, fs w !! p = Some (File d st true wr) ∧ utf8_valid d = false)).
Proof.
  unfold open_read.
  destruct (fs w !! p) as [[d st [] wr|? ?]|]; try (intros [= <- <-]; by auto).
  destruct (utf8_valid d) eqn:Hv; [done |].
  intros [= <- <-]. split; [done |]. right. eauto 10.
Qed.

Lemma open_read_cases p w :
  (∃ text, open_read p w = (Ret text, w)) ∨ (∃ e, open_read p w = (Raise e, w)).
Proof.
  unfold open_read.
  destruct (fs w !! p) as [[d st [] wr|? ?]|]; eauto.
  destruct (utf8_valid d); eauto.
Qed.

Lemma text_at_Ret p w text : open_read p w = (Ret text, w) → text_at w p = Some text.
Proof. intros H. unfold text_at. by rewrite H. Qed.

Lemma text_at_Some p w text : text_at w p = Some text → open_read p w = (Ret text, w).
Proof.
  unfold text_at. destruct (open_read p w) as [[t|e|x] w'] eqn:H; try done.
  intros [= ->]. by destruct (open_read_Ret _ _ _ _ H) as [-> _].
Qed.

Lemma text_at_absent p w : fs w !! p = None → text_at w p = None.
Proof. intros H. unfold text_at, open_read. by rewrite H. Qed.

(** [open(p, 'w')] followed by [write(c)].  Either both go through and the
    file holds exactly [c], which is UTF-8; or [open] raises an [OSError]
    and nothing was touched; or [c] cannot be encoded, [write] raises
    [UnicodeEncodeError], and the file is left empty. *)
Lemma open_write_cases p c w :
  (∃ w', open_write p c w = (Ret tt, w') ∧ file_data w' p = Some c ∧
         utf8_valid c = true ∧ keeps_but p w w') ∨
  (∃ e, open_write p c w = (Raise e, w) ∧ IOError_OSError e = true) ∨
  (∃ w', open_write p c w = (Raise UnicodeEncodeError, w') ∧
         utf8_valid c = false ∧ file_data w' p = Some "" ∧ keeps_but p w w').
Proof.
  unfold open_write, open_for_writing.
  assert (∀ st r,
    (∃ w', (if utf8_valid c
            then (Ret tt, with_fs w (<[p := File c st r true]> (fs w)))
            else (Raise UnicodeEncodeError,
                  with_fs w (<[p := File "" st r true]> (fs w))))
           = (Ret tt, w') ∧ file_data w' p = Some c ∧
           utf8_valid c = true ∧ keeps_but p w w') ∨
    (∃ w', (if utf8_valid c
            then (Ret tt, with_fs w (<[p := File c st r true]> (fs w)))
            else (Raise UnicodeEncodeError,
                  with_fs w (<[p := File "" st r true]> (fs w))))
           = (@Raise unit UnicodeEncodeError, w') ∧
           utf8_valid c = false ∧ file_data w' p = Some "" ∧ keeps_but p w w'))
    as Hstore.
  { intros st r. destruct (utf8_valid c); [left | right].
    - eexists. split; [done |]. split; [apply file_data_insert |].
      split; [done | apply keeps_but_insert].
    - eexists. split; [done |]. split; [done |].
      split; [apply file_data_insert | apply keeps_but_insert]. }
  case_bool_decide as Hempty; [right; left; by eexists |].
  destruct (ends_with_sep p); [right; left; by eexists |].
  destruct (fs w !! p) as [[d st r []|st wr]|] eqn:Hp.
  - destruct (Hstore st r) as [H | H]; [by left | by right; right].
  - right; left. by eexists.
  - right; left. by eexists.
  - destruct (check_parent p w) as [e|] eqn:Hc.
    + right; left. exists e. split; [done | by eapply check_parent_OSError].
    + destruct (Hstore (Attrs (euser w) (egroup w) (mode_string (masked 438))) true)
        as [H | H]; [by left | by right; right].
Qed.

(** The [try] block of [write_file] returns [(True, None)] with the file
    holding the new content; or raises an [OSError] with every entry as it
    was; or raises [UnicodeEncodeError] with the target left empty. *)
Lemma write_file_try_cases path content w :
  (∃ w', write_file_try path content w = (Ret (true, None), w') ∧
         file_data w' path = Some content ∧ utf8_valid content = true ∧
         keeps_but path w w') ∨
  (∃ e w', write_file_try path content w = (Raise e, w') ∧
           IOError_OSError e = true ∧ keeps w w') ∨
  (∃ w', write_file_try path content w = (Raise UnicodeEncodeError, w') ∧
         utf8_valid content = false ∧ file_data w' path = Some "" ∧
         keeps_but path w w').
Proof.
  unfold write_file_try.
  set (directory := os_path_dirname path).
  assert (∃ b, (if negb (bool_decide (directory = ""))
                then directory_exists ← os_path_exists directory;
                     mret (negb directory_exists)
                else mret false) w = (Ret b, w)) as [missing Hm].
  { destruct (negb (bool_decide (directory = ""))); by eexists. }
  rewrite (bind_Ret _ _ _ _ _ Hm).
  assert (∃ r w1, when missing (os_makedirs directory 493) w = (r, w1) ∧
                  keeps w w1 ∧ os_outcome r) as (r & w1 & Hd & K1 & O1).
  { destruct missing; simpl.
    - destruct (os_makedirs directory 493 w) as [r w1] eqn:Hd.
      exists r, w1. split; [done |]. by eapply os_makedirs_keeps.
    - exists (Ret tt), w. split; [done |]. split; [apply keeps_refl | done]. }
  destruct r as [[]|e|x]; [| | done].
  - rewrite (bind_Ret _ _ _ _ _ Hd).
    destruct (open_write_cases path content w1) as
      [(w2 & Hw & Hdata & Hv & K2) | [(e & Hw & He) | (w2 & Hw & Hv & Hdata & K2)]].
    + left. exists w2. rewrite (bind_Ret _ _ _ _ _ Hw).
      split; [done |]. split; [done |]. split; [done |].
      eapply keeps_but_trans; [by apply keeps_keeps_but | done].
    + right; left. exists e, w1. by rewrite (bind_Raise _ _ _ _ _ Hw).
    + right; right. exists w2. rewrite (bind_Raise _ _ _ _ _ Hw).
      split; [done |]. split; [done |]. split; [done |].
      eapply keeps_but_trans; [by apply keeps_keeps_but | done].
  - right; left. exists e, w1. by rewrite (bind_Raise _ _ _ _ _ Hd).
Qed.

(** [write_file] reports success, or the text of the [OSError] its [try]
    block raised; a [UnicodeEncodeError] passes its handler. *)
Lemma write_file_cases path content w :
  (∃ w', write_file_try path content w = (Ret (true, None), w') ∧
         write_file path content w = (Ret (true, None), w') ∧
         file_data w' path = Some content ∧ utf8_valid content = true ∧
         keeps_but path w w') ∨
  (∃ e w', write_file_try path content w = (Raise e, w') ∧
           write_file path content w = (Ret (false, Some (str e)), w') ∧
           IOError_OSError e = true ∧ keeps w w') ∨
  (∃ w', write_file_try path content w = (Raise UnicodeEncodeError, w') ∧
         write_file path content w = (Raise UnicodeEncodeError, w') ∧
         utf8_valid content = false ∧ file_data w' path = Some "" ∧
         keeps_but path w w').
Proof.
  destruct (write_file_try_cases path content w) as
    [(w' & Hb & Hdata & Hv & K) | [(e & w' & Hb & He & K) | (w' & Hb & Hv & Hdata & K)]].
  - left. exists w'. split; [done |]. split; [| done].
    unfold write_file. by rewrite (try_Ret _ _ _ _ _ _ Hb).
  - right; left. exists e, w'. split; [done |]. split; [| done].
    unfold write_file. by rewrite (try_caught _ _ _ _ _ _ Hb He).
  - right; right. exists w'. split; [done |]. split; [| done].
    unfold write_file, try_except. by rewrite Hb.
Qed.

(** ** The host helpers *)

Lemma set_fs_attributes_cases fa changed w :
  ∃ w', set_fs_attributes_if_different fa changed w
          = (Ret (changed || attrs_differ fa w), w') ∧
        (attrs_differ fa w = false → w' = w) ∧
        (attrs_differ fa w = true → file_attrs w' (fa_path fa) ≠ file_attrs w (fa_path fa)) ∧
        file_attrs w' (fa_path fa) = desired_attrs fa <$> file_attrs w (fa_path fa) ∧
        (∀ k, file_data w' k = file_data w k) ∧
        warnings w' = warnings w.
Proof.
  unfold set_fs_attributes_if_different, attrs_differ, file_attrs.
  destruct (fs w !! fa_path fa) as [n|] eqn:Hn.
  - case_bool_decide as Hd; simpl.
    + exists w. rewrite orb_false_r, Hn; simpl. rewrite Hd. by repeat split.
    + eexists. rewrite orb_true_r. split; [done |]. simpl.
      rewrite lookup_insert_eq; simpl.
      assert (node_attrs (chattr w n (desired_attrs fa (node_attrs n)))
              = desired_attrs fa (node_attrs n)) as Hna by by destruct n.
      rewrite Hna. repeat split; [done | congruence | ].
      intros k. unfold file_data; simpl.
      destruct (decide (k = fa_path fa)) as [->|Hk].
      * rewrite lookup_insert_eq, Hn. by destruct n.
      * by rewrite lookup_insert_ne.
  - exists w. rewrite orb_false_r, Hn. by repeat split.
Qed.

Lemma length_append (s t : string) :
  String.length (s +:+ t) = String.length s + String.length t.
Proof. induction s as [|c s IH]; simpl; [done | by rewrite IH]. Qed.

Lemma backup_path_fresh fn w : backup_path fn w ≠ fn.
Proof.
  unfold backup_path. intros H.
  apply (f_equal String.length) in H.
  rewrite length_append in H. simpl in H. lia.
Qed.

Lemma backup_path_truthy fn w : truthy (Some (backup_path fn w)) = true.
Proof.
  unfold truthy. destruct (backup_path fn w) eqn:H; [| done].
  apply (f_equal String.length) in H. unfold backup_path in H.
  rewrite length_append in H. destruct fn; simpl in H; lia.
Qed.

(** A successful [backup_local] of a regular file: the copy sits at
    [backup_path] with the data the file has, and every other entry, the
    file itself included, is as before. *)
Lemma backup_local_Ret fn w d st r wr b w' :
  fs w !! fn = Some (File d st r wr) →
  backup_local fn w = (Ret b, w') →
  b = backup_path fn w ∧ file_data w' b = Some d ∧ keeps_but b w w'.
Proof.
  intros Hfn. unfold backup_local. rewrite Hfn. fold (backup_path fn w).
  destruct r; [| done].
  destruct (fs w !! backup_path fn w) as [[? ? ? []|? ?]|] eqn:Hb; try done.
  - intros [= <- <-]. split; [done |].
    split; [apply file_data_insert | apply keeps_but_insert].
  - destruct (check_parent (backup_path fn w) w); [done |].
    intros [= <- <-]. split; [done |].
    split; [apply file_data_insert | apply keeps_but_insert].
Qed.

(** [backup_local] returns or raises; when it raises, nothing was touched. *)
Lemma backup_local_cases fn w :
  (∃ b w', backup_local fn w = (Ret b, w')) ∨
  (∃ e, backup_local fn w = (Raise e, w)).
Proof.
  unfold backup_local.
  destruct (fs w !! fn) as [[d st [] wr|? ?]|]; eauto.
  destruct (fs w !! _) as [[? ? ? []|? ?]|]; eauto.
  destruct (check_parent _ w); eauto.
Qed.

(** ** The module's helpers *)

(** [create_backup] on an existing path: the backup's path when
    [backup_local] returns, and [None] after a logged warning when it
    raises. *)
Lemma create_backup_Ret path w b w' :
  is_Some (fs w !! path) →
  backup_local path w = (Ret b, w') →
  create_backup path w = (Ret (Some b), w').
Proof.
  intros Hex Hb. unfold create_backup, os_path_exists.
  apply try_Ret. unfold mbind, M_bind, bind.
  rewrite bool_decide_true by done. by rewrite Hb.
Qed.

Lemma create_backup_Raise path w e w' :
  is_Some (fs w !! path) →
  backup_local path w = (Raise e, w') →
  create_backup path w = (Ret None, with_warning w' (backup_warning e)).
Proof.
  intros Hex Hb. unfold create_backup, os_path_exists.
  erewrite try_caught; [| | done].
  - done.
  - unfold mbind, M_bind, bind. rewrite bool_decide_true by done. by rewrite Hb.
Qed.

(** ** [run_module], branch by branch *)

Ltac step :=
  unfold when, os_path_exists, fail_json, exit_json,
         mbind, mret, M_bind, M_ret, bind, ret; simpl.

Lemma open_read_exists p w text : open_read p w = (Ret text, w) → is_Some (fs w !! p).
Proof.
  intros H. destruct (open_read_Ret _ _ _ _ H) as (_ & d & st & wr & Hp & _).
  rewrite Hp. eauto.
Qed.

(** [get_file_diff] on a target the main read got through. *)
Lemma get_file_diff_Ret path content w text :
  open_read path w = (Ret text, w) →
  get_file_diff path content w
  = (Ret (Some {| before := text; after := content |}), w).
Proof.
  intros H. unfold get_file_diff, try_except. step.
  rewrite bool_decide_true by (by eapply open_read_exists). by rewrite H.
Qed.

Lemma get_file_diff_absent path content w :
  fs w !! path = None → get_file_diff path content w = (Ret None, w).
Proof.
  intros H. unfold get_file_diff, try_except. step.
  rewrite H. by rewrite bool_decide_false by (by intros [? ?]).
Qed.

Lemma get_file_diff_Raise path content w e :
  is_Some (fs w !! path) →
  open_read path w = (Raise e, w) →
  get_file_diff path content w
  = (if IOError_OSError e then Ret None else Raise e, w).
Proof.
  intros Hex H. unfold get_file_diff, try_except. step.
  rewrite bool_decide_true by done. rewrite H. by destruct (IOError_OSError e).
Qed.

Section Run.

Variable m : AnsibleModule.

Lemma run_force_no w :
  p_force (module_params m) = false →
  is_Some (fs w !! p_path (module_params m)) →
  run_module m w
  = (Exit (FailJson (force_message (p_path (module_params m))) initial_result), w).
Proof.
  intros Hf Hex. unfold run_module. step.
  by rewrite Hf, bool_decide_true.
Qed.

Lemma run_unreadable w n e :
  p_force (module_params m) = true →
  fs w !! p_path (module_params m) = Some n →
  open_read (p_path (module_params m)) w = (Raise e, w) →
  IOError_OSError e = true →
  run_module m w
  = (Exit (FailJson (read_message (p_path (module_params m)) e) initial_result), w).
Proof.
  intros Hf Hn Hr He. unfold run_module. step.
  rewrite Hf, bool_decide_true by (by eexists). simpl.
  unfold try_except. by rewrite Hr, He.
Qed.

(** A read error that is no [OSError] passes the handler of the main read:
    the run ends with the exception, uncaught. *)
Lemma run_undecodable w e :
  p_force (module_params m) = true →
  is_Some (fs w !! p_path (module_params m)) →
  open_read (p_path (module_params m)) w = (Raise e, w) →
  IOError_OSError e = false →
  run_module m w = (Raise e, w).
Proof.
  intros Hf Hex Hr He. unfold run_module. step.
  rewrite Hf, bool_decide_true by done. simpl.
  unfold try_except. by rewrite Hr, He.
Qed.

Lemma run_check_mode w :
  past_gates m w → check_mode m = true →
  run_module m w = (Exit (ExitJson (reported m w)), w).
Proof.
  intros Hg Hc. unfold run_module, reported. step.
  destruct Hg as [Hn | (Hf & text & Hr)].
  - rewrite Hn. simpl. rewrite andb_false_r. simpl.
    by rewrite Hc, orb_true_r, get_file_diff_absent, (text_at_absent _ _ Hn).
  - rewrite Hf, bool_decide_true by (by eapply open_read_exists). simpl.
    unfold try_except. step. rewrite Hr. simpl.
    rewrite Hc, orb_true_r, (get_file_diff_Ret _ _ _ _ Hr), (text_at_Ret _ _ _ Hr).
    simpl. by case_bool_decide.
Qed.

Lemma run_same w :
  check_mode m = false →
  p_force (module_params m) = true →
  open_read (p_path (module_params m)) w = (Ret (p_content (module_params m)), w) →
  ∃ w', set_fs_attributes_if_different
          (load_file_common_arguments (module_params m)) false w
        = (Ret (attrs_differ (load_file_common_arguments (module_params m)) w), w') ∧
        run_module m w =
          (Exit (ExitJson (set_changed (reported m w)
                  (attrs_differ (load_file_common_arguments (module_params m)) w))), w').
Proof.
  intros Hc Hf Hr.
  destruct (set_fs_attributes_cases
              (load_file_common_arguments (module_params m)) false w)
    as (w' & Hs & _).
  exists w'. split; [done |].
  unfold run_module, reported. step.
  rewrite Hf, bool_decide_true by (by eapply open_read_exists). simpl.
  unfold try_except. step. rewrite Hr. simpl.
  rewrite (text_at_Ret _ _ _ Hr).
  rewrite bool_decide_true by done. simpl.
  rewrite Hc, orb_false_r.
  destruct (_diff m); simpl.
  - rewrite (get_file_diff_Ret _ _ _ _ Hr). simpl. rewrite Hs. simpl.
    by destruct (attrs_differ _ w).
  - rewrite Hs. simpl. by destruct (attrs_differ _ w).
Qed.

Lemma run_write w :
  needs_write m w →
  r_changed (reported m w) = true ∧
  run_module m w =
    (backup_step m (bool_decide (is_Some (fs w !! p_path (module_params m))))
       (reported m w) ≫= write_step m) w.
Proof.
  intros (Hc & Hg).
  unfold run_module, backup_step, write_step, reported. step.
  destruct Hg as [Hn | (Hf & text & Hr & Hd)].
  - rewrite Hn. simpl. rewrite !andb_false_r. simpl.
    rewrite (text_at_absent _ _ Hn). split; [done |].
    rewrite Hc, orb_false_r.
    destruct (_diff m); simpl; [| done].
    by rewrite get_file_diff_absent.
  - pose proof (open_read_exists _ _ _ Hr) as Hex.
    rewrite Hf, !(bool_decide_true (is_Some _)) by done. simpl.
    unfold try_except. step. rewrite Hr. simpl.
    rewrite (text_at_Ret _ _ _ Hr).
    rewrite !bool_decide_false by congruence. simpl. split; [done |].
    rewrite Hc, orb_false_r.
    destruct (_diff m); simpl; [| done].
    by rewrite (get_file_diff_Ret _ _ _ _ Hr).
Qed.

(** The backup statement: skipped, or a copy was made and its path
    recorded, or the copy failed and a warning was logged instead. *)
Lemma backup_step_cases w r :
  let path := p_path (module_params m) in
  let file_exists := bool_decide (is_Some (fs w !! path)) in
  (p_backup (module_params m) && file_exists = false ∧
   backup_step m file_exists r w = (Ret r, w)) ∨
  (p_backup (module_params m) && file_exists = true ∧
   ∃ b w1, backup_local path w = (Ret b, w1) ∧
           backup_step m file_exists r w
           = (Ret (if truthy (Some b) then set_backup_file r b else r), w1)) ∨
  (p_backup (module_params m) && file_exists = true ∧
   ∃ e, backup_local path w = (Raise e, w) ∧
        backup_step m file_exists r w
        = (Ret r, with_warning w (backup_warning e))).
Proof.
  cbv zeta. unfold backup_step.
  destruct (p_backup (module_params m) && _) eqn:Hb.
  - right. apply andb_true_iff in Hb as [_ Hex].
    apply bool_decide_eq_true in Hex.
    destruct (backup_local_cases (p_path (module_params m)) w)
      as [(b & w1 & Hl) | (e & Hl)].
    + left. split; [done |]. exists b, w1. split; [done |].
      by rewrite (bind_Ret _ _ _ _ _ (create_backup_Ret _ _ _ _ Hex Hl)).
    + right. split; [done |]. exists e. split; [done |].
      by rewrite (bind_Ret _ _ _ _ _ (create_backup_Raise _ _ _ _ Hex Hl)).
  - left. done.
Qed.

(** The write and what follows it, for a result already marked changed.
    The [try] block of [write_file] returns, and the module exits with that
    very result, only attributes having been touched since; or it raises an
    [OSError], and the module fails with the text of that error; or the
    content cannot be encoded, and the run ends there with the
    [UnicodeEncodeError] uncaught and the target empty. *)
Lemma write_step_cases r w :
  let path := p_path (module_params m) in
  let content := p_content (module_params m) in
  r_changed r = true →
  (∃ w1 w2, write_file_try path content w = (Ret (true, None), w1) ∧
            file_data w1 path = Some content ∧ keeps_but path w w1 ∧
            set_fs_attributes_if_different
              (load_file_common_arguments (module_params m)) true w1
            = (Ret true, w2) ∧
            write_step m r w = (Exit (ExitJson r), w2) ∧
            (∀ k, file_data w2 k = file_data w1 k) ∧
            warnings w2 = warnings w) ∨
  (∃ e w1, write_file_try path content w = (Raise e, w1) ∧
           IOError_OSError e = true ∧ keeps w w1 ∧
           write_step m r w = (Exit (FailJson (write_message path e) r), w1)) ∨
  (∃ w1, write_file_try path content w = (Raise UnicodeEncodeError, w1) ∧
         utf8_valid content = false ∧ file_data w1 path = Some "" ∧
         keeps_but path w w1 ∧
         write_step m r w = (Raise UnicodeEncodeError, w1)).
Proof.
  cbv zeta. intros Hr. unfold write_step.
  destruct (write_file_cases (p_path (module_params m))
              (p_content (module_params m)) w) as
    [(w1 & Hb & Hw & Hdata & _ & K) | [(e & w1 & Hb & Hw & He & K) |
     (w1 & Hb & Hw & Hv & Hdata & K)]].
  - left.
    destruct (set_fs_attributes_cases
                (load_file_common_arguments (module_params m)) true w1)
      as (w2 & Hs & _ & _ & _ & Hd2 & Hw2).
    simpl in Hs.
    exists w1, w2. do 3 (split; [done |]). split; [done |].
    split; [| split; [done |]].
    + rewrite (bind_Ret _ _ _ _ _ Hw). step. rewrite Hr, Hs. simpl.
      by destruct r; simpl in *; subst.
    + destruct K as (_ & _ & _ & _ & _ & K). congruence.
  - right; left. exists e, w1. do 3 (split; [done |]).
    rewrite (bind_Ret _ _ _ _ _ Hw). by step.
  - right; right. exists w1. do 4 (split; [done |]).
    by rewrite (bind_Raise _ _ _ _ _ Hw).
Qed.

(** ** How a run can go *)

(** The states of the target that [run_module] tells apart. *)
Lemma target_cases w :
  let path := p_path (module_params m) in
  (p_force (module_params m) = false ∧ is_Some (fs w !! path)) ∨
  (p_force (module_params m) = true ∧
   ∃ n e, fs w !! path = Some n ∧ open_read path w = (Raise e, w) ∧
          IOError_OSError e = true) ∨
  (p_force (module_params m) = true ∧ is_Some (fs w !! path) ∧
   ∃ e, open_read path w = (Raise e, w) ∧ IOError_OSError e = false) ∨
  (past_gates m w ∧ check_mode m = true) ∨
  (check_mode m = false ∧ p_force (module_params m) = true ∧
   open_read path w = (Ret (p_content (module_params m)), w)) ∨
  needs_write m w.
Proof.
  cbv zeta. unfold past_gates, needs_write.
  set (path := p_path (module_params m)).
  destruct (fs w !! path) as [n|] eqn:Hn.
  - destruct (p_force (module_params m)) eqn:Hf; [| left; eauto].
    right.
    destruct (open_read_cases path w) as [[text Hr] | [e Hr]].
    + do 2 right. destruct (check_mode m) eqn:Hc.
      * left. split; [right; eauto | done].
      * right.
        destruct (decide (text = p_content (module_params m))) as [->|Hd].
        -- left. eauto.
        -- right. split; [done |]. right. eauto.
    + destruct (IOError_OSError e) eqn:He.
      * left. split; [done |]. eauto 10.
      * right; left. split; [done |]. split; [eauto |]. eauto.
  - do 3 right. destruct (check_mode m) eqn:Hc.
    + left. split; [by left | done].
    + right. right. split; [done | by left].
Qed.

End Run.
(** ** The file layer, in more detail *)

Lemma bind_Exit {A B} (c : M A) (k : A → M B) w x w' :
  c w = (Exit x, w') → (c ≫= k) w = (Exit x, w').
Proof. intros H. unfold mbind, M_bind, bind. by rewrite H. Qed.

Lemma dirname_length_le p :
  (String.length (os_path_dirname p) ≤ String.length p)%nat.
Proof.
  unfold os_path_dirname.
  destruct (upto_last_sep_length p) as [U _].
  destruct (rstrip_sep_length (upto_last_sep p)) as [R _].
  destruct (_ && _); lia.
Qed.

Lemma mkdir_exist_ok_other name mode w r w' k :
  mkdir_exist_ok name mode w = (r, w') → k ≠ name → fs w' !! k = fs w !! k.
Proof.
  unfold mkdir_exist_ok. intros H Hk.
  destruct (fs w !! name) as [[? ? ? ?|? ?]|]; try (by injection H as <- <-).
  destruct (check_parent name w); injection H as <- <-; [done |].
  simpl. by rewrite lookup_insert_ne.
Qed.

(** [os.makedirs] taken apart: the climb leaves every path at least as long
    as [name] alone, and then either the leaf is made or the climb's error
    is the result. *)
Lemma makedirs_from_inv fuel : ∀ name mode w r w',
  makedirs_from fuel name mode w = (r, w') →
  ∃ w0, keeps w w0 ∧
        (∀ k, (String.length name ≤ String.length k)%nat →
              fs w0 !! k = fs w !! k) ∧
        (mkdir_exist_ok name mode w0 = (r, w') ∨
         (w' = w0 ∧ ∃ e, r = Raise e)).
Proof.
  induction fuel as [|n IH]; intros name mode w r w'; simpl.
  - rewrite (bind_Ret _ _ w tt w) by done. intros H.
    exists w. split; [apply keeps_refl |]. split; [done | by left].
  - unfold when.
    destruct (negb (bool_decide (os_path_dirname name = ""))
              && negb (bool_decide (os_path_dirname name = name))) eqn:Hc.
    + apply andb_true_iff in Hc as [_ Hc].
      apply negb_true_iff, bool_decide_eq_false in Hc.
      pose proof (dirname_shorter name Hc) as Hlt.
      unfold os_path_exists at 1.
      unfold mbind at 1 2, M_bind, bind.
      destruct (bool_decide (is_Some (fs w !! os_path_dirname name))); simpl.
      * intros H. exists w. split; [apply keeps_refl |]. split; [done | by left].
      * unfold try_except.
        destruct (makedirs_from n (os_path_dirname name) 511 w)
          as [r1 w1] eqn:Hrec.
        destruct (makedirs_from_keeps _ _ _ _ _ _ Hrec) as [K1 O1].
        destruct (IH _ _ _ _ _ Hrec) as (w00 & _ & Hfar & Hleaf).
        assert (∀ k, (String.length name ≤ String.length k)%nat →
                     fs w1 !! k = fs w !! k) as Hfar1.
        { intros k Hk. rewrite <- (Hfar k) by lia.
          destruct Hleaf as [Hm | [-> _]]; [| done].
          apply (mkdir_exist_ok_other _ _ _ _ _ _ Hm).
          intros ->. lia. }
        destruct r1 as [[]|e|x]; simpl in O1; [| | done].
        -- intros H. exists w1. split; [done |]. split; [done | by left].
        -- destruct (FileExistsError e); simpl.
           ++ intros H. exists w1. split; [done |]. split; [done | by left].
           ++ intros [= <- <-]. exists w1. split; [done |].
              split; [done |]. right. eauto.
    + rewrite (bind_Ret _ _ w tt w) by done. intros H.
      exists w. split; [apply keeps_refl |]. split; [done | by left].
Qed.

(** A returning [os.makedirs] of a missing directory leaves it in place,
    owned by the process, writable, with the mode asked for less the
    umask. *)
Lemma os_makedirs_creates name mode w w' :
  os_makedirs name mode w = (Ret tt, w') →
  fs w !! name = None →
  fs w' !! name
  = Some (Dir (Attrs (euser w) (egroup w) (mode_string (masked mode))) true).
Proof.
  intros H Hn.
  destruct (makedirs_from_inv _ _ _ _ _ _ H) as (w0 & K & Hfar & [Hm | [_ [e He]]]);
    [| done].
  destruct K as (_ & _ & _ & Hu & Hg & _).
  unfold mkdir_exist_ok in Hm. rewrite (Hfar name), Hn in Hm by lia.
  destruct (check_parent name w0); [done |].
  injection Hm as <-. simpl. by rewrite lookup_insert_eq, Hu, Hg.
Qed.

(** [os.makedirs] of the parent never makes, or alters, the target itself. *)
Lemma os_makedirs_dirname_target p mode w w' :
  os_path_dirname p ≠ "" →
  os_makedirs (os_path_dirname p) mode w = (Ret tt, w') →
  fs w' !! p = fs w !! p.
Proof.
  intros Hd H.
  destruct (makedirs_from_inv _ _ _ _ _ _ H) as (w0 & K & Hfar & [Hm | [_ [e He]]]);
    [| done].
  pose proof (dirname_length_le p) as Hle.
  rewrite <- (Hfar p) by done.
  destruct (decide (p = os_path_dirname p)) as [Heq | Hne];
    [| by apply (mkdir_exist_ok_other _ _ _ _ _ _ Hm)].
  (* the parent is the target itself: only a directory already there lets
     the leaf step return, and then nothing is altered *)
  rewrite <- Heq in Hm. unfold mkdir_exist_ok in Hm.
  destruct (fs w0 !! p) as [[? ? ? ?|? ?]|] eqn:Hp; [done | by injection Hm as <- | ].
  unfold check_parent in Hm. rewrite <- Heq, bool_decide_false in Hm by congruence.
  by rewrite Hp in Hm.
Qed.

(** A returning [open(p, 'w')] and [write]: the node now at [p] is a
    writable file with the new data, the attributes and readability of the
    old file if there was one, and those of a fresh file otherwise. *)
Lemma open_write_node p c w w' :
  open_write p c w = (Ret tt, w') →
  ∃ r, fs w' !! p = Some (File c (prior_attrs w p) r true) ∧
       (∀ d st r0 wr, fs w !! p = Some (File d st r0 wr) → r = r0) ∧
       (fs w !! p = None → r = true) ∧
       p ≠ "" ∧ ends_with_sep p = false ∧ utf8_valid c = true ∧
       keeps_but p w w'.
Proof.
  unfold open_write, open_for_writing, prior_attrs.
  case_bool_decide as Hempty; [done |].
  destruct (ends_with_sep p) eqn:Hsep; [done |].
  destruct (fs w !! p) as [[d st r []|st wr]|] eqn:Hp; try done.
  - destruct (utf8_valid c) eqn:Hv; [| done].
    intros [= <-]. exists r. simpl. rewrite lookup_insert_eq.
    split; [done |]. split; [by intros ? ? ? ? [= _ _ <- _] |].
    split; [done |]. do 3 (split; [done |]). apply keeps_but_insert.
  - destruct (check_parent p w); [done |].
    destruct (utf8_valid c) eqn:Hv; [| done].
    intros [= <-]. exists true. simpl. rewrite lookup_insert_eq.
    split; [done |]. split; [done |]. split; [done |].
    do 3 (split; [done |]). apply keeps_but_insert.
Qed.

(** A returning [try] block of [write_file], in full: the target is a
    writable file holding the new content; it has the attributes and the
    readability of the file it replaces, or those of a fresh file; the
    parent directory, if the path names one, exists, a missing one having
    been made with mode 0755; whatever else was there is unaltered. *)
Lemma write_file_try_success path content w ok w' :
  write_file_try path content w = (Ret ok, w') →
  ok = (true, None) ∧
  (∃ r, fs w' !! path = Some (File content (prior_attrs w path) r true) ∧
        (∀ d st r0 wr, fs w !! path = Some (File d st r0 wr) → r = r0) ∧
        (fs w !! path = None → r = true)) ∧
  keeps_but path w w' ∧
  (os_path_dirname path = "" ∨
   (is_Some (fs w' !! os_path_dirname path) ∧
    (fs w !! os_path_dirname path = None →
     fs w' !! os_path_dirname path
     = Some (Dir (Attrs (euser w) (egroup w) "0755") true)))).
Proof.
  unfold write_file_try.
  set (directory := os_path_dirname path).
  destruct (decide (directory = "")) as [Hd | Hd].
  - (* a bare name: no directory to make *)
    rewrite bool_decide_true by done. simpl.
    rewrite (bind_Ret _ _ w false w) by done.
    rewrite (bind_Ret _ _ w tt w) by done.
    destruct (open_write path content w) as [[[]|e|x] w1] eqn:Hw.
    + rewrite (bind_Ret _ _ _ _ _ Hw). intros [= <- <-].
      destruct (open_write_node _ _ _ _ Hw) as (r & Hn & Hr & Hr' & _ & _ & _ & K).
      split; [done |]. split; [eauto |]. split; [done | by left].
    + by rewrite (bind_Raise _ _ _ _ _ Hw).
    + by rewrite (bind_Exit _ _ _ _ _ Hw).
  - rewrite bool_decide_false by done. simpl.
    assert ((directory_exists ← os_path_exists directory;
             mret (negb directory_exists)) w
            = (Ret (negb (bool_decide (is_Some (fs w !! directory)))), w)) as Hm by done.
    rewrite (bind_Ret _ _ _ _ _ Hm).
    destruct (when (negb (bool_decide (is_Some (fs w !! directory))))
                (os_makedirs directory 493) w) as [[[]|e|x] w1] eqn:Hmk;
      [| by rewrite (bind_Raise _ _ _ _ _ Hmk) | by rewrite (bind_Exit _ _ _ _ _ Hmk)].
    rewrite (bind_Ret _ _ _ _ _ Hmk).
    (* what the directory step did *)
    assert (keeps w w1 ∧ fs w1 !! path = fs w !! path ∧
            is_Some (fs w1 !! directory) ∧
            (fs w !! directory = None →
             fs w1 !! directory
             = Some (Dir (Attrs (euser w) (egroup w) "0755") true)))
      as (K1 & Hsame & Hex & Hnew).
    { unfold when in Hmk. case_bool_decide as Hdir; simpl in Hmk.
      - injection Hmk as <-. split; [apply keeps_refl |]. split; [done |].
        split; [done |]. intros Hn. rewrite Hn in Hdir. by destruct Hdir.
      - assert (fs w !! directory = None) as Hn.
        { destruct (fs w !! directory) eqn:E; [| done]. exfalso. apply Hdir. eauto. }
        split; [by eapply os_makedirs_keeps |].
        split; [by eapply os_makedirs_dirname_target |].
        rewrite (os_makedirs_creates _ _ _ _ Hmk Hn). eauto. }
    destruct (open_write path content w1) as [[[]|e|x] w2] eqn:Hw;
      [| by rewrite (bind_Raise _ _ _ _ _ Hw) | by rewrite (bind_Exit _ _ _ _ _ Hw)].
    rewrite (bind_Ret _ _ _ _ _ Hw). intros [= <- <-].
    destruct (open_write_node _ _ _ _ Hw) as (r & Hn & Hr & Hr' & _ & _ & _ & K2).
    assert (prior_attrs w1 path = prior_attrs w path) as Hprior.
    { unfold prior_attrs. rewrite Hsame.
      destruct K1 as (_ & _ & _ & -> & -> & _). done. }
    split; [done |]. rewrite <- Hprior, <- Hsame.
    split; [exists r; eauto |].
    split; [eapply keeps_but_trans; [by apply keeps_keeps_but | done] |].
    right. destruct K2 as (F & _). destruct Hex as [n Hdn].
    destruct (decide (directory = path)) as [Heq | Hne].
    + (* the target is its own parent *)
      rewrite Heq in *. rewrite Hn. split; [eauto |].
      intros Hnone. rewrite Hsame, Hnone in Hdn. done.
    + split; [rewrite (F _ _ Hne Hdn); eauto |].
      intros Hnone. apply F; [done |]. by apply Hnew.
Qed.

(** Where the path is a bare name or its directory is there, the [try]
    block of [write_file] makes no directory: it is [open] and [write]. *)
Lemma write_file_try_no_makedirs path content w :
  os_path_dirname path = "" ∨ is_Some (fs w !! os_path_dirname path) →
  write_file_try path content w = (open_write path content;; mret (true, None)) w.
Proof.
  intros Hdir. unfold write_file_try.
  destruct Hdir as [-> | Hex].
  - rewrite bool_decide_true by done. by step.
  - case_bool_decide; [by step |]. step. by rewrite bool_decide_true.
Qed.


(** ** The host helper and the steps of [run_module], in more detail *)

Lemma same_mode_refl a : same_mode a a = true.
Proof.
  unfold same_mode. destruct (mode_value a); by rewrite bool_decide_true.
Qed.

Lemma desired_attrs_idem fa st :
  desired_attrs fa (desired_attrs fa st) = desired_attrs fa st.
Proof.
  unfold desired_attrs. simpl.
  destruct (fa_owner fa), (fa_group fa), (fa_mode fa) as [mode|]; simpl;
    try done;
    (destruct (same_mode mode (st_mode st)) eqn:Hs;
     [by rewrite Hs | by rewrite same_mode_refl]).
Qed.

(** What [set_fs_attributes_if_different] does to the file system: the node
    at the path gets the desired attributes and keeps its kind and data;
    nothing else is altered. *)
Lemma set_fs_attributes_node fa changed w b w' :
  set_fs_attributes_if_different fa changed w = (Ret b, w') →
  keeps_but (fa_path fa) w w' ∧
  (∀ d st r wr, fs w !! fa_path fa = Some (File d st r wr) →
     ∃ r' wr', fs w' !! fa_path fa = Some (File d (desired_attrs fa st) r' wr') ∧
               (desired_attrs fa st = st → r' = r ∧ wr' = wr)) ∧
  (is_Some (fs w !! fa_path fa) → is_Some (fs w' !! fa_path fa)) ∧
  (fs w !! fa_path fa = None → w' = w).
Proof.
  unfold set_fs_attributes_if_different.
  destruct (fs w !! fa_path fa) as [n|] eqn:Hn.
  - case_bool_decide as Hd; intros [= <- <-].
    + split; [apply keeps_keeps_but, keeps_refl |]. split; [| by rewrite Hn].
      intros d st r wr [= ->]. simpl in Hd. rewrite Hd.
      exists r, wr. by rewrite Hn.
    + split; [apply keeps_but_insert |]. simpl. rewrite lookup_insert_eq.
      split; [| split; [eauto | done]].
      intros d st r wr [= ->]. simpl in *.
      eexists _, _. split; [done |]. intros Hsame. by destruct Hd.
  - intros [= <- <-]. split; [apply keeps_keeps_but, keeps_refl |].
    split; [done |]. split; [by intros [? ?] | done].
Qed.

Lemma grows_but_refl ps w : grows_but ps w w.
Proof. intros k n Hk. split; [eauto | done]. Qed.

Lemma grows_but_trans ps w1 w2 w3 :
  grows_but ps w1 w2 → grows_but ps w2 w3 → grows_but ps w1 w3.
Proof.
  intros G1 G2 k n Hk. destruct (G1 k n Hk) as [[n2 H2] F1].
  destruct (G2 k n2 H2) as [H3 F2]. split; [done |].
  intros Hps. specialize (F1 Hps). rewrite F1 in H2. injection H2 as <-.
  by apply F2.
Qed.

Lemma keeps_grows_but ps w w' : keeps w w' → grows_but ps w w'.
Proof. intros (F & _) k n Hk. split; [eauto | auto]. Qed.

Lemma keeps_but_grows_but p ps w w' :
  keeps_but p w w' → In p ps → is_Some (fs w' !! p) → grows_but ps w w'.
Proof.
  intros (F & _) Hp Hsome k n Hk.
  destruct (decide (k = p)) as [-> | Hne].
  - split; [done |]. intros Hnot. by destruct Hnot.
  - split; [rewrite (F _ _ Hne Hk); eauto | intros _; by apply F].
Qed.

Section RunTrace.

Variable m : AnsibleModule.

(** A write step that ends the run by [exit_json] or [fail_json] carries
    the result it was given, alters no entry but the target, removes none,
    and logs nothing. *)
Lemma write_step_frame r w x w' :
  r_changed r = true →
  write_step m r w = (Exit x, w') →
  exit_result x = r ∧
  keeps_but (path_of m) w w' ∧
  (is_Some (fs w !! path_of m) ∨ succeeded x = true → is_Some (fs w' !! path_of m)) ∧
  warnings w' = warnings w.
Proof.
  intros Hr Hrun.
  destruct (write_step_cases m r w Hr) as
    [(w1 & w2 & Ht & _ & _ & Hs & Hw & _) | [(e & w1 & _ & _ & K & Hw) |
     (w1 & _ & _ & _ & _ & Hw)]];
    rewrite Hw in Hrun; [injection Hrun as <- <- | injection Hrun as <- <- | done].
  - destruct (write_file_try_success _ _ _ _ _ Ht) as (_ & (r0 & Hn & _) & K1 & _).
    destruct (set_fs_attributes_node _ _ _ _ _ Hs) as (K2 & _ & Hnode & _).
    simpl in K2, Hnode.
    split; [done |]. split; [by eapply keeps_but_trans |].
    split; [intros _; apply Hnode; rewrite Hn; eauto |].
    destruct K1 as (_ & _ & _ & _ & _ & Hw1).
    destruct K2 as (_ & _ & _ & _ & _ & Hw2). congruence.
  - split; [done |]. split; [by apply keeps_keeps_but |].
    destruct K as (F & _ & _ & _ & _ & ->).
    split; [| done]. intros [[n Hn] | Hs]; [rewrite (F _ _ Hn); eauto | done].
Qed.

(** However the write step ends, it alters no entry but the target,
    removes none, and logs nothing. *)
Lemma write_step_frame_any r w o w' :
  r_changed r = true →
  write_step m r w = (o, w') →
  keeps_but (path_of m) w w' ∧
  (is_Some (fs w !! path_of m) → is_Some (fs w' !! path_of m)) ∧
  warnings w' = warnings w ∧
  (∀ x, o = Exit x → exit_result x = r).
Proof.
  intros Hr Hrun.
  destruct (write_step_cases m r w Hr) as
    [(w1 & w2 & _ & _ & _ & _ & Hw & _) | [(e & w1 & _ & _ & _ & Hw) |
     (w1 & _ & _ & Hdata & K & Hw)]].
  - destruct (write_step_frame r w _ _ Hr Hw) as (Hx & K & Hsome & Hwarn).
    rewrite Hw in Hrun. injection Hrun as <- <-.
    split; [done |]. split; [auto |]. split; [done |]. by intros x [= <-].
  - destruct (write_step_frame r w _ _ Hr Hw) as (Hx & K & Hsome & Hwarn).
    rewrite Hw in Hrun. injection Hrun as <- <-.
    split; [done |]. split; [auto |]. split; [done |]. by intros x [= <-].
  - rewrite Hw in Hrun. injection Hrun as <- <-.
    split; [done |]. split; [| split; [by destruct K as (_ & _ & _ & _ & _ & ->) | done]].
    intros _. unfold file_data in Hdata.
    destruct (fs w1 !! path_of m); [eauto | done].
Qed.

(** The backup statement on a run that reaches the write: what it returns
    and what it leaves behind. *)
Lemma backup_step_trace w :
  needs_write m w →
  let b := backup_path (path_of m) w in
  ∃ r1 w1,
    backup_step m (bool_decide (is_Some (fs w !! path_of m))) (reported m w) w
      = (Ret r1, w1) ∧
    fs w1 !! path_of m = fs w !! path_of m ∧
    euser w1 = euser w ∧ egroup w1 = egroup w ∧
    ((r1 = reported m w ∧ w1 = w) ∨
     (r1 = set_backup_file (reported m w) b ∧
      p_backup (module_params m) = true ∧ keeps_but b w w1 ∧
      warnings w1 = warnings w ∧
      ∃ text d, open_read (path_of m) w = (Ret text, w) ∧ text ≠ content_of m ∧
                file_data w (path_of m) = Some d ∧ file_data w1 b = Some d) ∨
     (r1 = reported m w ∧ p_backup (module_params m) = true ∧
      ∃ e, backup_local (path_of m) w = (Raise e, w) ∧
           w1 = with_warning w (backup_warning e))).
Proof.
  intros (Hc & Hg) b.
  destruct (backup_step_cases m w (reported m w)) as
    [(_ & Hb) | [(Hon & b' & w1 & Hl & Hb) | (Hon & e & Hl & Hb)]].
  - exists (reported m w), w. split; [done |]. do 3 (split; [done |]). by left.
  - apply andb_true_iff in Hon as [Hbk Hex]. apply bool_decide_eq_true in Hex.
    destruct Hg as [Hn | (_ & text & Hr & Hd)];
      [rewrite Hn in Hex; by destruct Hex |].
    destruct (open_read_Ret _ _ _ _ Hr) as (_ & d & st & wr & Hp & _).
    destruct (backup_local_Ret _ _ _ _ _ _ _ _ Hp Hl) as (-> & Hbd & K).
    fold b in Hb, Hbd, K. unfold b in Hb at 1. rewrite backup_path_truthy in Hb.
    assert (path_of m ≠ b) as Hne by (apply not_eq_sym, backup_path_fresh).
    exists (set_backup_file (reported m w) b), w1. split; [done |].
    destruct K as (F & ? & ? & ? & ? & ?).
    split; [by rewrite Hp; apply F; [| rewrite Hp] |].
    do 2 (split; [done |]). right; left.
    split; [done |]. split; [done |]. split; [by repeat split |].
    split; [done |]. exists text, d. do 2 (split; [done |]).
    unfold file_data at 1. by rewrite Hp.
  - apply andb_true_iff in Hon as [Hbk _].
    exists (reported m w), (with_warning w (backup_warning e)).
    split; [done |]. do 3 (split; [done |]). right; right. eauto.
Qed.

End RunTrace.

(** A run that reaches the write: the backup statement returns, and the run
    ends as the write step started from there ends. *)
Lemma run_write_trace m w :
  needs_write m w →
  r_changed (reported m w) = true ∧
  ∃ r1 w1,
    backup_step m (bool_decide (is_Some (fs w !! path_of m))) (reported m w) w
      = (Ret r1, w1) ∧
    r_changed r1 = true ∧
    run_module m w = write_step m r1 w1.
Proof.
  intros Hn. destruct (run_write m w Hn) as [Hch Hrun'].
  split; [done |].
  destruct (backup_step_trace m w Hn) as (r1 & w1 & Hb & _ & _ & _ & Hcases).
  exists r1, w1. split; [done |].
  split; [by destruct Hcases as [[-> _] | [(-> & _) | (-> & _)]] |].
  by rewrite Hrun', (bind_Ret _ _ _ _ _ Hb).
Qed.

(** The text the main read found is the requested content, or there was
    none to find: what [reported] says of the change. *)
Lemma reported_unchanged m w :
  r_changed (reported m w) = false ↔
  open_read (path_of m) w = (Ret (content_of m), w).
Proof.
  unfold reported; simpl. split.
  - intros H. apply negb_false_iff, bool_decide_eq_true in H.
    by apply text_at_Some.
  - intros H. by rewrite (text_at_Ret _ _ _ H), bool_decide_true.
Qed.

(** Which result a run ends with: the initial one (the two early failures),
    or one that has the diff of [reported], is [reported] itself in check
    mode, and is marked changed whenever [reported] is. *)
Lemma run_result_shape m w x w' :
  run_module m w = (Exit x, w') →
  exit_result x = initial_result ∨
  (past_gates m w ∧
   r_diff (exit_result x) = r_diff (reported m w) ∧
   (check_mode m = true → exit_result x = reported m w) ∧
   (r_changed (reported m w) = true → r_changed (exit_result x) = true) ∧
   (r_changed (reported m w) = false → r_backup_file (exit_result x) = None)).
Proof.
  intros Hrun.
  destruct (target_cases m w) as
    [(Hf & Hex) | [(Hf & n & e & Hn & Hr & He) | [(Hf & Hex & e & Hr & He) |
     [(Hg & Hc) | [(Hc & Hf & Hr) | Hn]]]]].
  - rewrite (run_force_no m w Hf Hex) in Hrun. injection Hrun as <- <-. by left.
  - rewrite (run_unreadable m w n e Hf Hn Hr He) in Hrun.
    injection Hrun as <- <-. by left.
  - by rewrite (run_undecodable m w e Hf Hex Hr He) in Hrun.
  - rewrite (run_check_mode m w Hg Hc) in Hrun. injection Hrun as <- <-.
    right. by repeat split.
  - destruct (run_same m w Hc Hf Hr) as (w1 & _ & Hrun1).
    rewrite Hrun1 in Hrun. injection Hrun as <- <-. right.
    split; [right; eauto |]. split; [done |]. split; [congruence |].
    split; [| done]. intros Hch.
    apply (reported_unchanged m w) in Hr. congruence.
  - destruct (run_write_trace m w Hn) as (Hch & r1 & w1 & Hb & Hr1 & Hw).
    rewrite Hw in Hrun.
    destruct (write_step_frame m r1 w1 _ _ Hr1 Hrun) as (-> & _).
    destruct (backup_step_trace m w Hn) as (r1' & w1' & Hb' & _ & _ & _ & Hcases).
    rewrite Hb in Hb'. injection Hb' as <- <-.
    right. split.
    { destruct Hn as (_ & [Hnone | (Hf & text & Hr & _)]);
        [by left | right; eauto]. }
    split; [by destruct Hcases as [[-> _] | [(-> & _) | (-> & _)]] |].
    split; [destruct Hn; congruence |]. split; [done | congruence].
Qed.

(** The gates in terms of the node at the target: a run past them found
    the target absent, or found a readable regular file there. *)
Lemma past_gates_passes m w : past_gates m w → passes_gates m w.
Proof.
  intros [Hn | (Hf & text & Hr)]; [by left | right].
  split; [done |].
  destruct (open_read_Ret _ _ _ _ Hr) as (_ & d & st & wr & Hp & _). eauto.
Qed.

(** A readable file of plain text is read as stored. *)
Lemma open_read_plain p w d st wr :
  fs w !! p = Some (File d st true wr) →
  plain_text d →
  open_read p w = (Ret d, w).
Proof.
  intros Hp [Hv Hn]. unfold open_read. by rewrite Hp, Hv, Hn.
Qed.

Lemma open_read_file p w d st wr :
  fs w !! p = Some (File d st true wr) →
  utf8_valid d = true →
  open_read p w = (Ret (universal_newlines d), w).
Proof. intros Hp Hv. unfold open_read. by rewrite Hp, Hv. Qed.

(** The node a successful real run leaves at the target: a regular file
    with the desired attributes, holding the requested content as written,
    or left as found because what was read from it is the requested
    content. *)
Lemma run_success_node m w r w' :
  check_mode m = false →
  run_module m w = (Exit (ExitJson r), w') →
  ∃ d rd wr,
    fs w' !! path_of m
    = Some (File d (desired_attrs (file_args_of m) (prior_attrs w (path_of m))) rd wr) ∧
    utf8_valid d = true ∧
    (d = content_of m ∨
     (file_data w (path_of m) = Some d ∧
      open_read (path_of m) w = (Ret (content_of m), w))).
Proof.
  intros Hc Hrun.
  destruct (target_cases m w) as
    [(Hf & Hex) | [(Hf & n & e & Hn & Hr & He) | [(Hf & Hex & e & Hr & He) |
     [(_ & Hc') | [(_ & Hf & Hr) | Hn]]]]]; [| | | congruence | |].
  - rewrite (run_force_no m w Hf Hex) in Hrun. discriminate.
  - rewrite (run_unreadable m w n e Hf Hn Hr He) in Hrun. discriminate.
  - by rewrite (run_undecodable m w e Hf Hex Hr He) in Hrun.
  - destruct (run_same m w Hc Hf Hr) as (w1 & Hs & Hrun1).
    rewrite Hrun1 in Hrun. injection Hrun as <- <-.
    destruct (open_read_Ret _ _ _ _ Hr) as (_ & d & st & wr & Hp & Hv & Htext).
    destruct (set_fs_attributes_node _ _ _ _ _ Hs) as (_ & Hnode & _).
    simpl in Hnode. destruct (Hnode _ _ _ _ Hp) as (rd & wr' & Hnode' & _).
    exists d, rd, wr'. unfold prior_attrs. rewrite Hp. simpl.
    split; [done |]. split; [done |]. right.
    unfold file_data. by rewrite Hp.
  - destruct (backup_step_trace m w Hn) as (r1 & w1 & Hb & Hsame & Hu & Hg & _).
    destruct (run_write_trace m w Hn) as (_ & r1' & w1' & Hb' & Hr1 & Hw).
    rewrite Hb in Hb'. injection Hb' as <- <-. rewrite Hw in Hrun.
    destruct (write_step_cases m r1 w1 Hr1) as
      [(w2 & w3 & Ht & _ & _ & Hs & Hw' & _) | [(e & w2 & _ & _ & _ & Hw') |
       (w2 & _ & _ & _ & _ & Hw')]];
      rewrite Hw' in Hrun; [injection Hrun as _ <- | discriminate | discriminate].
    destruct (write_file_cases (path_of m) (content_of m) w1) as
      [(w2' & Ht' & _ & _ & Hv & _) | [(e & w2' & Ht' & _) | (w2' & Ht' & _)]];
      rewrite Ht in Ht'; try discriminate.
    destruct (write_file_try_success _ _ _ _ _ Ht) as (_ & (r0 & Hnode & _) & _).
    assert (prior_attrs w1 (path_of m) = prior_attrs w (path_of m)) as Hprior.
    { unfold prior_attrs. by rewrite Hsame, Hu, Hg. }
    destruct (set_fs_attributes_node _ _ _ _ _ Hs) as (_ & Hnode' & _).
    simpl in Hnode'. destruct (Hnode' _ _ _ _ Hnode) as (rd & wr' & Hfin & _).
    exists (content_of m), rd, wr'. rewrite <- Hprior.
    split; [done |]. split; [done | by left].
Qed.

(** ** Scenarios *)

(** [/tmp/a.txt] absent, content "hello": the file is created. *)
Example scenario_create :
  run_module (request "hello" None true false false false) tmp_empty
  = (Exit (ExitJson (Result true "/tmp/a.txt" "hello" None None)), tmp_hello).
Proof. vm_compute. reflexivity. Qed.

(** [/tmp/a.txt] holds "hello", content "world", [backup=yes]: the old
    content goes to the sibling backup file, the new one to the target. *)
Example scenario_backup :
  let b := "/tmp/a.txt.12345.2024-01-01@12:00:00~" in
  let end_ := run_module (request "world" None true true false false) tmp_hello in
  fst end_ = Exit (ExitJson (Result true "/tmp/a.txt" "world" None (Some b))) ∧
  file_data (snd end_) b = Some "hello" ∧
  file_data (snd end_) "/tmp/a.txt" = Some "world".
Proof. repeat split; vm_compute; reflexivity. Qed.

(** [/tmp/a.txt] holds two lines ending in CR LF and the request asks for
    those very bytes: the read returns the lines with LF ends, the
    comparison fails, and the file is backed up and rewritten. *)
Example scenario_crlf :
  let b := "/tmp/a.txt.12345.2024-01-01@12:00:00~" in
  let end_ := run_module (request crlf_text None true true false false) tmp_crlf in
  open_read "/tmp/a.txt" tmp_crlf = (Ret lf_text, tmp_crlf) ∧
  fst end_ = Exit (ExitJson (Result true "/tmp/a.txt" crlf_text None (Some b))) ∧
  file_data (snd end_) b = Some crlf_text ∧
  file_data (snd end_) "/tmp/a.txt" = Some crlf_text.
Proof. repeat split; vm_compute; reflexivity. Qed.

(** [/tmp/a.txt] holds a byte that is no UTF-8: the main read raises
    [UnicodeDecodeError], which its handler does not catch. *)
Example scenario_undecodable :
  run_module (request "hello" None true false false false) tmp_binary
  = (Raise UnicodeDecodeError, tmp_binary).
Proof. vm_compute. reflexivity. Qed.

(** The requested content cannot be encoded: [open] has truncated the
    file when [write] raises [UnicodeEncodeError], which the handler of
    [write_file] does not catch. *)
Example scenario_unencodable :
  let end_ := run_module (request not_utf8 None true false false false) tmp_hello in
  fst end_ = Raise UnicodeEncodeError ∧
  file_data (snd end_) "/tmp/a.txt" = Some "".
Proof. split; vm_compute; reflexivity. Qed.

(** The process is not root and asks for mode 0200 on its own file: the
    file is rewritten and, once the mode is set, no longer readable. *)
Example scenario_write_only :
  let end_ := run_module (request "world" (Some "0200") true false false false)
                tmp_hello_deploy in
  fst end_ = Exit (ExitJson (Result true "/tmp/a.txt" "world" None None)) ∧
  fs (snd end_) !! "/tmp/a.txt"
  = Some (File "world" (Attrs "deploy" "deploy" "0200") false true).
Proof. split; vm_compute; reflexivity. Qed.

(** * The claims *)

(** ** C1 *)

(** C1 does not hold of the code, which compares the requested content
    with what a text-mode read returns, not with what the file holds.
    Take a readable target that holds exactly the requested content, a
    text with a carriage return in it, and whose owner, group and mode are
    as requested.  The read turns CR LF and CR into LF, the comparison of
    line 206 fails, and every successful run with [force=yes] reports
    [changed = true], although the target existed, its content did not
    differ, and no attribute differed. *)
Theorem identical_content_with_cr_reported_changed m w st wr r w' :
  fs w !! path_of m = Some (File (content_of m) st true wr) →
  utf8_valid (content_of m) = true →
  universal_newlines (content_of m) ≠ content_of m →
  p_force (module_params m) = true →
  attrs_differ (file_args_of m) w = false →
  run_module m w = (Exit (ExitJson r), w') →
  r_changed r = true ∧
  ¬ (fs w !! path_of m = None ∨
     (∃ d, file_data w (path_of m) = Some d ∧ d ≠ content_of m) ∨
     (attrs_differ (file_args_of m) w = true ∧
      file_attrs w' (path_of m) ≠ file_attrs w (path_of m))).
Proof.
  intros Hp Hv Hcr Hf Ha Hrun.
  pose proof (open_read_file _ _ _ _ _ Hp Hv) as Hr.
  split.
  - destruct (check_mode m) eqn:Hc.
    + assert (past_gates m w) as Hg by (right; eauto).
      rewrite (run_check_mode m w Hg Hc) in Hrun. injection Hrun as <- _.
      unfold reported; simpl. rewrite (text_at_Ret _ _ _ Hr).
      apply negb_true_iff, bool_decide_eq_false. congruence.
    + assert (needs_write m w) as Hn.
      { split; [done |]. right. split; [done |]. eauto. }
      destruct (run_write_trace m w Hn) as (_ & r1 & w1 & _ & Hr1 & Hw).
      rewrite Hw in Hrun.
      by destruct (write_step_frame m r1 w1 _ _ Hr1 Hrun) as (<- & _).
  - intros [Hn | [(d & Hd & Hne) | (Ha' & _)]]; [congruence | | congruence].
    unfold file_data in Hd. rewrite Hp in Hd. congruence.
Qed.

(** [/tmp/a.txt] holds the two CR LF lines that are requested. *)
Lemma identical_crlf_witness :
  let m := request crlf_text None true false false false in
  let r := Result true "/tmp/a.txt" crlf_text None None in
  let w' := snd (run_module m tmp_crlf) in
  r_changed r = true ∧
  ¬ (fs tmp_crlf !! path_of m = None ∨
     (∃ d, file_data tmp_crlf (path_of m) = Some d ∧ d ≠ content_of m) ∨
     (attrs_differ (file_args_of m) tmp_crlf = true ∧
      file_attrs w' (path_of m) ≠ file_attrs tmp_crlf (path_of m))).
Proof.
  apply (identical_content_with_cr_reported_changed
           (request crlf_text None true false false false) tmp_crlf
           file_attrs_0644 true
           (Result true "/tmp/a.txt" crlf_text None None));
    [reflexivity | reflexivity | vm_compute; discriminate | reflexivity
    | reflexivity | vm_compute; reflexivity].
Defined.

(** ** C2 *)

(** C2, as stated, fails.  [/tmp/a.txt] already holds "hello" with mode
    0644 and the request asks for "hello" with mode 0600: in check mode the
    module reports [changed = false], whereas the real run alters the mode
    and reports [changed = true]. *)
Lemma dry_run_misses_attribute_change :
  outcome (run_module (request "hello" (Some "0600") true false true false) tmp_hello)
    = Some (ExitJson (Result false "/tmp/a.txt" "hello"
                        (Some (Some (Diff "hello" "hello"))) None)) ∧
  outcome (run_module (request "hello" (Some "0600") true false false false) tmp_hello)
    = Some (ExitJson (Result true "/tmp/a.txt" "hello" None None)).
Proof. split; vm_compute; reflexivity. Qed.

(** C2, amended.  In check mode the run leaves the machine exactly as it
    found it, however it ends.  When it exits successfully and the real
    run on the same machine ends by [exit_json] or [fail_json], the real
    run's [changed] is that of the check-mode run, except that the real
    run also reports an owner/group/mode difference, which check mode does
    not look at.  On a target that is absent or holds plain text the
    check-mode [changed] is the content-level decision: the target is
    absent or holds other content. *)
Theorem check_mode_mutates_nothing_reports_content_change m w o w1 :
  check_mode m = true →
  run_module m w = (o, w1) →
  w1 = w ∧
  ∀ r x' w2,
    o = Exit (ExitJson r) →
    run_module (with_check_mode m false) w = (Exit x', w2) →
    ((∀ d, file_data w (path_of m) = Some d → plain_text d) →
     r_changed r = negb (bool_decide (file_data w (path_of m) = Some (content_of m)))) ∧
    r_changed (exit_result x') = r_changed r || attrs_differ (file_args_of m) w.
Proof.
  intros Hc Hrun.
  destruct (target_cases m w) as
    [(Hf & Hex) | [(Hf & n & e & Hn & Hr & He) | [(Hf & Hex & e & Hr & He) |
     [(Hg & _) | [(Hc' & _) | (Hc' & _)]]]]]; try congruence.
  - rewrite (run_force_no m w Hf Hex) in Hrun. by injection Hrun as <- <-.
  - rewrite (run_unreadable m w n e Hf Hn Hr He) in Hrun.
    by injection Hrun as <- <-.
  - rewrite (run_undecodable m w e Hf Hex Hr He) in Hrun.
    by injection Hrun as <- <-.
  - rewrite (run_check_mode m w Hg Hc) in Hrun. injection Hrun as <- <-.
    split; [done |]. intros r x' w2 [= <-] Hwet. split.
    { intros Hplain. unfold reported; simpl. f_equal.
      destruct Hg as [Hn | (Hf & text & Hr)].
      - rewrite (text_at_absent _ _ Hn). unfold file_data. rewrite Hn.
        by rewrite !bool_decide_false.
      - destruct (open_read_Ret _ _ _ _ Hr) as (_ & d & st & wr & Hp & _ & Htext).
        assert (file_data w (path_of m) = Some d) as Hd
          by (unfold file_data; by rewrite Hp).
        destruct (Hplain d Hd) as [_ Hsame]. rewrite Hsame in Htext. subst text.
        by rewrite (text_at_Ret _ _ _ Hr), Hd. }
    set (m' := with_check_mode m false) in *.
    destruct (target_cases m' w) as
      [(Hf' & Hex') | [(Hf' & n' & e' & Hn' & Hr' & He') |
       [(Hf' & Hex' & e' & Hr' & He') | [(_ & Hc') | [(_ & Hf' & Hr') | Hn]]]]];
      simpl in *; try discriminate.
    + destruct Hg as [Hn | (Hf & _)]; [| congruence].
      rewrite Hn in Hex'. by destruct Hex'.
    + destruct Hg as [Hn | (Hf & text & Hr)]; congruence.
    + by rewrite (run_undecodable m' w e' Hf' Hex' Hr' He') in Hwet.
    + destruct (run_same m' w eq_refl Hf' Hr') as (w3 & _ & Hrun').
      rewrite Hrun' in Hwet. injection Hwet as <- <-. simpl.
      by rewrite (text_at_Ret _ _ _ Hr'), bool_decide_true.
    + destruct (run_write_trace m' w Hn) as (Hch & r1 & w3 & _ & Hr1 & Hw).
      rewrite Hw in Hwet.
      destruct (write_step_frame m' r1 w3 _ _ Hr1 Hwet) as (-> & _).
      rewrite Hr1. unfold reported in Hch. simpl in Hch. by rewrite Hch.
Qed.

Lemma check_mode_witness :
  let m := request "hello" (Some "0600") true false true false in
  let r := Result false "/tmp/a.txt" "hello" (Some (Some (Diff "hello" "hello"))) None in
  let r' := Result true "/tmp/a.txt" "hello" None None in
  tmp_hello = tmp_hello ∧
  r_changed r = negb (bool_decide (file_data tmp_hello (path_of m) = Some (content_of m))) ∧
  r_changed (exit_result (ExitJson r'))
    = r_changed r || attrs_differ (file_args_of m) tmp_hello.
Proof.
  intros m r r'.
  pose proof (check_mode_mutates_nothing_reports_content_change
                m tmp_hello (Exit (ExitJson r)) tmp_hello eq_refl) as H.
  destruct H as [H1 H2]; [vm_compute; reflexivity |].
  split; [exact H1 |].
  destruct (H2 r (ExitJson r') (snd (run_module (with_check_mode m false) tmp_hello)))
    as [H3 H4]; [reflexivity | vm_compute; reflexivity |].
  split; [| exact H4]. apply H3.
  intros d Hd. vm_compute in Hd. injection Hd as <-. split; reflexivity.
Defined.

(** ** C3 *)

(** C3.  With [force=no] and the target present (whatever it holds), the
    module fails with the "already exists" error and the machine, hence the
    file and its content, is exactly as it was. *)
Theorem force_no_on_existing_target_fails_untouched m w :
  p_force (module_params m) = false →
  is_Some (fs w !! path_of m) →
  ∃ w', run_module m w
          = (Exit (FailJson (force_message (path_of m)) initial_result), w') ∧
        w' = w ∧
        file_data w' (path_of m) = file_data w (path_of m).
Proof.
  intros Hf Hex. exists w. split; [| done].
  by apply run_force_no.
Qed.

Lemma force_no_witness :
  let m := request "world" None false false false false in
  ∃ w', run_module m tmp_hello
          = (Exit (FailJson (force_message (path_of m)) initial_result), w') ∧
        w' = tmp_hello ∧
        file_data w' (path_of m) = file_data tmp_hello (path_of m).
Proof.
  apply (force_no_on_existing_target_fails_untouched
           (request "world" None false false false false) tmp_hello).
  - reflexivity.
  - vm_compute. eexists. reflexivity.
Defined.

(** ** C4 *)

(** C4, as stated, fails: it speaks of every real run on a target that
    already holds the requested content, but such a run only reaches the
    attribute check past the two gates.  With [force=no] the module fails
    at once, and with an unreadable target it fails at the read; either
    way the requested mode is not applied (the file keeps the mode it
    had).
    And where the content has a carriage return in it the write is not
    skipped: the read returns other text than the file holds, so the file
    is backed up and rewritten. *)
Lemma same_content_attrs_not_applied_behind_gates :
  (let m := request "hello" (Some "0600") false false false false in
   outcome (run_module m tmp_hello)
     = Some (FailJson (force_message "/tmp/a.txt") initial_result) ∧
   file_attrs (snd (run_module m tmp_hello)) "/tmp/a.txt" = Some file_attrs_0644) ∧
  (let m := request "hello" (Some "0640") true false false false in
   outcome (run_module m tmp_hello_unreadable)
     = Some (FailJson (read_message "/tmp/a.txt" (EACCES "/tmp/a.txt")) initial_result) ∧
   file_attrs (snd (run_module m tmp_hello_unreadable)) "/tmp/a.txt"
     = Some (Attrs "root" "root" "0600")) ∧
  (let m := request crlf_text None true true false false in
   let b := backup_path "/tmp/a.txt" tmp_crlf in
   file_data tmp_crlf "/tmp/a.txt" = Some (content_of m) ∧
   outcome (run_module m tmp_crlf)
     = Some (ExitJson (Result true "/tmp/a.txt" crlf_text None (Some b))) ∧
   fs tmp_crlf !! b = None ∧
   file_data (snd (run_module m tmp_crlf)) b = Some crlf_text).
Proof. repeat split; vm_compute; reflexivity. Qed.

(** C4, amended.  A real run with [force=yes] on a readable target that
    already holds the requested content, a plain text, writes nothing and
    makes no backup: every file's content is as before.  It still applies
    the requested owner/group/mode, and [changed] is true exactly when
    that altered an attribute; if none differs the machine is untouched. *)
Theorem same_content_skips_write_applies_attrs m w st wr :
  check_mode m = false →
  p_force (module_params m) = true →
  fs w !! path_of m = Some (File (content_of m) st true wr) →
  plain_text (content_of m) →
  ∃ r w',
    run_module m w = (Exit (ExitJson r), w') ∧
    (∀ k, file_data w' k = file_data w k) ∧
    r_backup_file r = None ∧
    file_attrs w' (path_of m) = Some (desired_attrs (file_args_of m) st) ∧
    r_changed r = negb (bool_decide (desired_attrs (file_args_of m) st = st)) ∧
    (desired_attrs (file_args_of m) st = st → w' = w).
Proof.
  intros Hc Hf Hp Hplain.
  pose proof (open_read_plain _ _ _ _ _ Hp Hplain) as Hr.
  destruct (run_same m w Hc Hf Hr) as (w' & Hs & Hrun).
  destruct (set_fs_attributes_cases (file_args_of m) false w)
    as (w2 & Hs2 & Hsame & _ & Hattrs & Hdata & _).
  rewrite Hs in Hs2. injection Hs2 as <-.
  assert (attrs_differ (file_args_of m) w
          = negb (bool_decide (desired_attrs (file_args_of m) st = st))) as Hdiff.
  { unfold attrs_differ; simpl. by rewrite Hp. }
  eexists _, w'. split; [exact Hrun |]. split; [done |]. split; [done |].
  split; [| split].
  - simpl in Hattrs. rewrite Hattrs. unfold file_attrs. by rewrite Hp.
  - done.
  - intros Heq. apply Hsame. rewrite Hdiff. by rewrite bool_decide_true.
Qed.

Lemma same_content_witness :
  let m := request "hello" (Some "0600") true false false false in
  ∃ r w',
    run_module m tmp_hello = (Exit (ExitJson r), w') ∧
    (∀ k, file_data w' k = file_data tmp_hello k) ∧
    r_backup_file r = None ∧
    file_attrs w' (path_of m) = Some (desired_attrs (file_args_of m) file_attrs_0644) ∧
    r_changed r
      = negb (bool_decide (desired_attrs (file_args_of m) file_attrs_0644 = file_attrs_0644)) ∧
    (desired_attrs (file_args_of m) file_attrs_0644 = file_attrs_0644 → w' = tmp_hello).
Proof.
  apply (same_content_skips_write_applies_attrs
           (request "hello" (Some "0600") true false false false) tmp_hello
           file_attrs_0644 true);
    [reflexivity | reflexivity | reflexivity | split; reflexivity].
Defined.

(** ** C5 *)




(** ** C6 *)

(** C6.  When the run gets to the backup (a real run with [force=yes] and
    [backup=yes] whose read of the target returned a text other than the
    requested content) and [backup_local] raises, the exception is caught:
    [create_backup] logs a warning and returns [None], no backup path
    enters the result, and the run carries on with the write from the
    machine as the failed copy left it (plus the warning).  The outcome is
    then the write's alone: success with the target holding the requested
    content, or the write's own failure. *)
Theorem backup_failure_is_warned_and_write_proceeds m w text e w1 :
  check_mode m = false →
  p_force (module_params m) = true →
  p_backup (module_params m) = true →
  open_read (path_of m) w = (Ret text, w) →
  text ≠ content_of m →
  backup_local (path_of m) w = (Raise e, w1) →
  let warned := with_warning w1 (backup_warning e) in
  create_backup (path_of m) w = (Ret None, warned) ∧
  run_module m w = write_step m (reported m w) warned ∧
  ((∃ w', run_module m w = (Exit (ExitJson (reported m w)), w') ∧
          file_data w' (path_of m) = Some (content_of m) ∧
          warnings w' = (warnings w1 ++ [backup_warning e])%list) ∨
   (∃ e' w', write_file_try (path_of m) (content_of m) warned = (Raise e', w') ∧
             run_module m w
             = (if IOError_OSError e'
                then Exit (FailJson (write_message (path_of m) e') (reported m w))
                else Raise e', w'))) ∧
  r_backup_file (reported m w) = None.
Proof.
  intros Hc Hf Hbk Hread Hd Hb warned.
  pose proof (open_read_exists _ _ _ Hread) as Hex.
  pose proof (create_backup_Raise _ _ _ _ Hex Hb) as Hcb. fold warned in Hcb.
  split; [done |].
  assert (needs_write m w) as Hn.
  { split; [done |]. right. split; [done |]. eauto. }
  destruct (run_write m w Hn) as [Hch Hrun].
  assert (backup_step m (bool_decide (is_Some (fs w !! path_of m))) (reported m w) w
          = (Ret (reported m w), warned)) as Hstep.
  { unfold backup_step. rewrite Hbk, bool_decide_true by done. simpl.
    by rewrite (bind_Ret _ _ _ _ _ Hcb). }
  rewrite (bind_Ret _ _ _ _ _ Hstep) in Hrun.
  split; [done |]. split; [| done].
  destruct (write_step_cases m (reported m w) warned Hch) as
    [(w2 & w3 & _ & Hdata & _ & _ & Hw & Hd3 & Hwarn) |
     [(e' & w2 & Hraise & He & _ & Hw) | (w2 & Hraise & _ & _ & _ & Hw)]].
  - left. exists w3. rewrite Hrun, Hw, Hd3, Hwarn. done.
  - right. exists e', w2. by rewrite Hrun, Hw, He.
  - right. exists UnicodeEncodeError, w2. by rewrite Hrun, Hw.
Qed.

(** [/tmp] takes no new entry, so the copy fails; the file itself is
    writable and is rewritten. *)
Lemma backup_failure_witness :
  let m := request "world" None true true false false in
  let e := EACCES "/tmp/a.txt.12345.2024-01-01@12:00:00~" in
  let warned := with_warning tmp_hello_locked_dir (backup_warning e) in
  create_backup (path_of m) tmp_hello_locked_dir = (Ret None, warned) ∧
  run_module m tmp_hello_locked_dir
    = write_step m (reported m tmp_hello_locked_dir) warned ∧
  ((∃ w', run_module m tmp_hello_locked_dir
          = (Exit (ExitJson (reported m tmp_hello_locked_dir)), w') ∧
          file_data w' (path_of m) = Some (content_of m) ∧
          warnings w' = (warnings tmp_hello_locked_dir ++ [backup_warning e])%list) ∨
   (∃ e' w', write_file_try (path_of m) (content_of m) warned = (Raise e', w') ∧
             run_module m tmp_hello_locked_dir
             = (if IOError_OSError e'
                then Exit (FailJson (write_message (path_of m) e')
                             (reported m tmp_hello_locked_dir))
                else Raise e', w'))) ∧
  r_backup_file (reported m tmp_hello_locked_dir) = None.
Proof.
  apply (backup_failure_is_warned_and_write_proceeds
           (request "world" None true true false false) tmp_hello_locked_dir
           "hello" (EACCES "/tmp/a.txt.12345.2024-01-01@12:00:00~")
           tmp_hello_locked_dir);
    [reflexivity | reflexivity | reflexivity | vm_compute; reflexivity
    | vm_compute; discriminate | vm_compute; reflexivity].
Defined.

(** ** C7 *)

(** C7 does not hold of the code: the handler of [write_file] catches
    [IOError] and [OSError] only.  When the requested content cannot be
    encoded, a real run that reaches the write step never ends in success.
    Either [os.makedirs] or [open] raised an [OSError] and the module fails
    with the write message, as the claim says; or the file was opened, and
    thereby emptied, and [write] raised [UnicodeEncodeError]: the run then
    ends with that exception uncaught, no [fail_json] is called, and the
    target holds neither the requested nor the prior content.  The second
    is what happens whenever [open] succeeds: with no backup asked for and
    the directory in place, the run ends with the exception and leaves the
    file that [open] opened, empty. *)
Theorem unencodable_content_escapes_write_handler m w o w' :
  needs_write m w →
  utf8_valid (content_of m) = false →
  run_module m w = (o, w') →
  ((o = Raise UnicodeEncodeError ∧ file_data w' (path_of m) = Some "") ∨
   (∃ e r, o = Exit (FailJson (write_message (path_of m) e) r) ∧
           IOError_OSError e = true)) ∧
  (p_backup (module_params m) = false →
   os_path_dirname (path_of m) = "" ∨
     is_Some (fs w !! os_path_dirname (path_of m)) →
   ∀ st r, open_for_writing (path_of m) w = inr (st, r) →
           o = Raise UnicodeEncodeError ∧
           w' = with_fs w (<[path_of m := File "" st r true]> (fs w))).
Proof.
  intros Hn Hv Hrun. split.
  - destruct (run_write_trace m w Hn) as (_ & r1 & w1 & _ & Hr1 & Hw).
    rewrite Hw in Hrun.
    destruct (write_file_cases (path_of m) (content_of m) w1) as
      [(w2 & _ & _ & _ & Hv' & _) | [(e & w2 & Ht & _) | (w2 & Ht & _)]];
      [congruence | |];
      (destruct (write_step_cases m r1 w1 Hr1) as
         [(w3 & w4 & Ht' & _) | [(e' & w3 & _ & He & _ & Hstep) |
          (w3 & _ & _ & Hdata & _ & Hstep)]];
       [congruence | |]);
      rewrite Hstep in Hrun; injection Hrun as <- <-; eauto.
  - intros Hbk Hdir st r Hopen.
    destruct (run_write m w Hn) as [Hch Hrun'].
    rewrite Hrun' in Hrun. unfold backup_step in Hrun.
    rewrite Hbk in Hrun. simpl in Hrun.
    assert (write_file_try (path_of m) (content_of m) w
            = (Raise UnicodeEncodeError,
               with_fs w (<[path_of m := File "" st r true]> (fs w)))) as Ht.
    { rewrite (write_file_try_no_makedirs _ _ _ Hdir). step.
      unfold open_write. by rewrite Hopen, Hv. }
    destruct (write_step_cases m (reported m w) w Hch) as
      [(w2 & w3 & Ht' & _) | [(e & w2 & Ht' & He & _) |
       (w2 & Ht' & _ & _ & _ & Hstep)]]; rewrite Ht in Ht'.
    + discriminate.
    + injection Ht' as <- _. discriminate.
    + injection Ht' as <-. unfold mbind, M_bind, bind, mret, M_ret, ret in Hrun.
      rewrite Hstep in Hrun. by injection Hrun as <- <-.
Qed.

(** [/tmp/a.txt] holds "hello" and the requested content cannot be
    encoded: the run ends with the exception and the file is empty. *)
Lemma unencodable_witness :
  let m := request not_utf8 None true false false false in
  let end_ := run_module m tmp_hello in
  fst end_ = Raise UnicodeEncodeError ∧
  snd end_
  = with_fs tmp_hello
      (<["/tmp/a.txt" := File "" file_attrs_0644 true true]> (fs tmp_hello)) ∧
  file_data (snd end_) (path_of m) = Some "".
Proof.
  intros m end_.
  assert (needs_write m tmp_hello) as Hn.
  { split; [reflexivity |]. right. split; [reflexivity |].
    exists "hello". split; [vm_compute; reflexivity | vm_compute; discriminate]. }
  destruct (unencodable_content_escapes_write_handler
              m tmp_hello (fst end_) (snd end_) Hn eq_refl
              (surjective_pairing end_)) as [Hends Hopen].
  destruct (Hopen eq_refl) with (st := file_attrs_0644) (r := true) as [Ho Hw];
    [right; vm_compute; eexists; reflexivity | reflexivity |].
  split; [exact Ho |]. split; [exact Hw |].
  destruct Hends as [[_ Hdata] | (e & r' & Hfail & _)]; [exact Hdata |].
  rewrite Ho in Hfail. discriminate.
Defined.

(** ** C8 *)

(** C8.  However the run ends, the result carries a ['diff'] key only when
    diff mode or check mode is on, and a before/after pair under it only
    when the target exists; the pair then is the text read from the target
    and the requested content.  So with the target absent, or with neither
    mode on, no pair is reported. *)
Theorem diff_only_when_requested_and_target_exists m w x w' :
  run_module m w = (Exit x, w') →
  (is_Some (r_diff (exit_result x)) → _diff m || check_mode m = true) ∧
  (∀ d, r_diff (exit_result x) = Some (Some d) →
        ∃ old, open_read (path_of m) w = (Ret old, w) ∧
               d = {| before := old; after := content_of m |}) ∧
  (fs w !! path_of m = None ∨ _diff m || check_mode m = false →
   ∀ d, r_diff (exit_result x) ≠ Some (Some d)).
Proof.
  intros Hrun.
  assert (r_diff (exit_result x) = None ∨
          r_diff (exit_result x) = r_diff (reported m w)) as Hdiff.
  { destruct (run_result_shape m w x w' Hrun) as [-> | (_ & Hd & _)]; auto. }
  assert (∀ d, r_diff (exit_result x) = Some (Some d) →
               _diff m || check_mode m = true ∧
               ∃ old, open_read (path_of m) w = (Ret old, w) ∧
                      d = {| before := old; after := content_of m |}) as Hpair.
  { intros d Hd. destruct Hdiff as [Hn | Heq]; [congruence |].
    rewrite Heq in Hd. unfold reported in Hd; simpl in Hd.
    destruct (_diff m || check_mode m); [| done]. split; [done |].
    destruct (text_at w (path_of m)) as [old|] eqn:Hold; [| done].
    exists old. split; [by apply text_at_Some |]. simpl in Hd. congruence. }
  split; [| split].
  - intros [od Hod]. destruct Hdiff as [Hn | Heq]; [congruence |].
    rewrite Heq in Hod. unfold reported in Hod; simpl in Hod.
    by destruct (_diff m || check_mode m).
  - intros d Hd. by apply Hpair.
  - intros Hno d Hd. destruct (Hpair d Hd) as (Hon & old & Hold & _).
    destruct Hno as [Hn | Hoff]; [| congruence].
    apply open_read_exists in Hold. rewrite Hn in Hold. by destruct Hold.
Qed.

(** In check mode on an existing file the pair is reported, and it is the
    old and the requested content. *)
Lemma diff_witness :
  let m := request "world" None true false true false in
  let d := {| before := "hello"; after := "world" |} in
  let x := ExitJson (Result true "/tmp/a.txt" "world" (Some (Some d)) None) in
  run_module m tmp_hello = (Exit x, tmp_hello) ∧
  _diff m || check_mode m = true ∧
  ∃ old, open_read (path_of m) tmp_hello = (Ret old, tmp_hello) ∧
         d = {| before := old; after := content_of m |}.
Proof.
  intros m d x.
  assert (run_module m tmp_hello = (Exit x, tmp_hello)) as Hrun
    by (vm_compute; reflexivity).
  destruct (diff_only_when_requested_and_target_exists m tmp_hello x tmp_hello Hrun)
    as (Hkey & Hpair & _).
  split; [exact Hrun |].
  split; [apply Hkey; eexists; reflexivity | apply Hpair; reflexivity].
Defined.

(** ** C9 *)

(** C9.  When the module fails at the force check or at the read of the
    existing file, the result attached to the failure is the initial one:
    empty [path], empty [content], [changed = false], and no other key.
    Every other way of ending, success or write failure, carries the
    request's path and content, which are stored after both checks. *)
Theorem early_failure_carries_initial_result m w x w' :
  run_module m w = (Exit x, w') →
  ((p_force (module_params m) = false ∧ is_Some (fs w !! path_of m)) ∨
   (∃ e, is_Some (fs w !! path_of m) ∧ open_read (path_of m) w = (Raise e, w)) →
   (x = FailJson (force_message (path_of m)) initial_result ∨
    ∃ e, x = FailJson (read_message (path_of m) e) initial_result) ∧
   r_path (exit_result x) = "" ∧
   r_content (exit_result x) = "" ∧
   r_changed (exit_result x) = false) ∧
  (passes_gates m w →
   r_path (exit_result x) = path_of m ∧
   r_content (exit_result x) = content_of m).
Proof.
  intros Hrun.
  destruct (target_cases m w) as
    [(Hf & Hex) | [(Hf & n & e & Hn & Hr & He) | [(Hf & Hex & e & Hr & He) |
     [(Hg & Hc) | [(Hc & Hf & Hr) | Hn]]]]].
  - rewrite (run_force_no m w Hf Hex) in Hrun. injection Hrun as <- <-.
    split; [intros _; split; [by left | done] |].
    intros [Hn | (Hf' & _)]; [| congruence]. rewrite Hn in Hex. by destruct Hex.
  - rewrite (run_unreadable m w n e Hf Hn Hr He) in Hrun. injection Hrun as <- <-.
    split; [intros _; split; [right; by exists e | done] |].
    intros [Hn' | (_ & d & st & wr & Hp)]; [congruence |].
    unfold open_read in Hr. rewrite Hp in Hr.
    destruct (utf8_valid d); [done |]. by injection Hr as <-.
  - by rewrite (run_undecodable m w e Hf Hex Hr He) in Hrun.
  - rewrite (run_check_mode m w Hg Hc) in Hrun. injection Hrun as <- <-.
    split; [| done].
    intros [(Hf & Hex) | (e & Hex & Hr)]; exfalso;
      destruct Hg as [Hn | (Hf' & text & Hr')]; try congruence.
    + rewrite Hn in Hex. by destruct Hex.
    + rewrite Hn in Hex. by destruct Hex.
  - destruct (run_same m w Hc Hf Hr) as (w1 & _ & Hrun1).
    rewrite Hrun1 in Hrun. injection Hrun as <- <-.
    split; [| done].
    intros [(Hf' & _) | (e & _ & Hr')]; congruence.
  - destruct (run_write_trace m w Hn) as (_ & r1 & w1 & Hstep & Hr1 & Hw).
    rewrite Hw in Hrun.
    destruct (write_step_frame m r1 w1 _ _ Hr1 Hrun) as (-> & _).
    assert (r_path r1 = path_of m ∧ r_content r1 = content_of m) as Hpc.
    { destruct (backup_step_cases m w (reported m w)) as
        [(_ & Hb) | [(_ & b & w3 & _ & Hb) | (_ & e & _ & Hb)]];
        rewrite Hb in Hstep; injection Hstep as <- <-; by repeat case_match. }
    split; [| done].
    intros Hearly; exfalso.
    destruct Hn as (_ & [Hn | (Hf & text & Hr & _)]).
    + destruct Hearly as [(_ & Hex) | (e & Hex & _)];
        rewrite Hn in Hex; by destruct Hex.
    + destruct Hearly as [(Hf' & _) | (e & _ & Hr')]; congruence.
Qed.

(** The target exists but cannot be read: the failure carries the initial
    result, not the request's path and content. *)
Lemma early_failure_witness :
  let m := request "hello" None true false false false in
  let x := FailJson (read_message "/tmp/a.txt" (EACCES "/tmp/a.txt")) initial_result in
  run_module m tmp_hello_unreadable = (Exit x, tmp_hello_unreadable) ∧
  (x = FailJson (force_message (path_of m)) initial_result ∨
   ∃ e, x = FailJson (read_message (path_of m) e) initial_result) ∧
  r_path (exit_result x) = "" ∧
  r_content (exit_result x) = "" ∧
  r_changed (exit_result x) = false.
Proof.
  intros m x.
  assert (run_module m tmp_hello_unreadable = (Exit x, tmp_hello_unreadable)) as Hrun
    by (vm_compute; reflexivity).
  split; [exact Hrun |].
  apply (proj1 (early_failure_carries_initial_result
                  m tmp_hello_unreadable x tmp_hello_unreadable Hrun)).
  right. exists (EACCES "/tmp/a.txt").
  split; [vm_compute; eexists; reflexivity | vm_compute; reflexivity].
Defined.

(** ** C10 *)

(** C10.  When the read of the existing file raises an [IOError] or
    [OSError] inside [get_file_diff], the handler swallows it: [None] is
    returned and the machine is left as it is.  Wherever [run_module]
    calls it (past the force check and the main read, in this sequential
    model) [get_file_diff] returns, so capturing the diff does not end the
    run.  The same read error in [run_module] itself is fatal: with
    [force=yes] the module fails with the read message. *)
Theorem diff_read_error_is_swallowed path content w e :
  is_Some (fs w !! path) →
  open_read path w = (Raise e, w) →
  IOError_OSError e = true →
  get_file_diff path content w = (Ret None, w) ∧
  (∀ m w0, past_gates m w0 →
           ∃ d, get_file_diff (path_of m) (content_of m) w0 = (Ret d, w0)) ∧
  (∀ m, path_of m = path → p_force (module_params m) = true →
        run_module m w
        = (Exit (FailJson (read_message path e) initial_result), w)).
Proof.
  intros Hex Hr He. split; [| split].
  - by rewrite (get_file_diff_Raise _ _ _ _ Hex Hr), He.
  - intros m w0 [Hn | (_ & text & Hr0)].
    + eexists. by apply get_file_diff_absent.
    + eexists. by eapply get_file_diff_Ret.
  - intros m <- Hf. destruct Hex as [n Hn].
    by apply (run_unreadable m w n e Hf Hn Hr).
Qed.

Lemma diff_read_error_witness :
  let e := EACCES "/tmp/a.txt" in
  get_file_diff "/tmp/a.txt" "world" tmp_hello_unreadable
    = (Ret None, tmp_hello_unreadable) ∧
  (∀ m w0, past_gates m w0 →
           ∃ d, get_file_diff (path_of m) (content_of m) w0 = (Ret d, w0)) ∧
  (∀ m, path_of m = "/tmp/a.txt" → p_force (module_params m) = true →
        run_module m tmp_hello_unreadable
        = (Exit (FailJson (read_message "/tmp/a.txt" e) initial_result),
           tmp_hello_unreadable)).
Proof.
  apply (diff_read_error_is_swallowed "/tmp/a.txt" "world" tmp_hello_unreadable
           (EACCES "/tmp/a.txt")).
  - vm_compute. eexists. reflexivity.
  - vm_compute. reflexivity.
  - reflexivity.
Defined.

(** * Further properties *)

(** ** X1: a second run finds nothing to do *)

(** X1.  After a real run with [force=yes] has exited successfully, if the
    requested content has no carriage return in it and the process can
    still read the target under the attributes now set, the same request
    run again, for real or in check mode, exits with [changed = false],
    records no backup and leaves the machine exactly as the first run left
    it. *)
Theorem rerun_changes_nothing m w r w' :
  check_mode m = false →
  p_force (module_params m) = true →
  run_module m w = (Exit (ExitJson r), w') →
  universal_newlines (content_of m) = content_of m →
  readable w' (path_of m) →
  ∀ check, ∃ r',
    run_module (with_check_mode m check) w' = (Exit (ExitJson r'), w') ∧
    r_changed r' = false ∧
    r_backup_file r' = None.
Proof.
  intros Hc Hf Hrun Hlf (d0 & st0 & wr0 & Hnode0) check.
  destruct (run_success_node m w r w' Hc Hrun) as (d & rd & wr & Hnode & Hv & Hd).
  set (st := desired_attrs (file_args_of m) (prior_attrs w (path_of m))) in *.
  set (m' := with_check_mode m check).
  rewrite Hnode0 in Hnode. injection Hnode as Hd0 Hst0 Hrd Hwr0.
  subst d0 st0 rd wr0.
  assert (universal_newlines d = content_of m) as Htext.
  { destruct Hd as [-> | (Hd & Hr)]; [done |].
    destruct (open_read_Ret _ _ _ _ Hr) as (_ & d' & st' & wr' & Hp & _ & ->).
    unfold file_data in Hd. rewrite Hp in Hd. by injection Hd as ->. }
  pose proof (open_read_file _ _ _ _ _ Hnode0 Hv) as Hread.
  rewrite Htext in Hread.
  destruct check.
  - (* check mode *)
    assert (past_gates m' w') as Hg by (right; eauto).
    rewrite (run_check_mode m' w' Hg eq_refl). eexists. split; [done |].
    unfold reported; simpl.
    by rewrite (text_at_Ret _ _ _ Hread), bool_decide_true.
  - destruct (run_same m' w' eq_refl Hf Hread) as (w2 & Hs & Hrun2).
    assert (attrs_differ (file_args_of m') w' = false) as Hdiff.
    { unfold attrs_differ; simpl. rewrite Hnode0; simpl. unfold st.
      by rewrite desired_attrs_idem, bool_decide_true. }
    destruct (set_fs_attributes_cases (file_args_of m') false w')
      as (w3 & Hs3 & Hsame & _).
    rewrite Hs in Hs3. injection Hs3 as <-. rewrite (Hsame Hdiff) in Hrun2.
    rewrite Hrun2, Hdiff. eexists. split; [done |]. done.
Qed.

(** Creating [/tmp/a.txt] with mode 0600 and asking again, in check mode
    and for real. *)
Lemma rerun_witness :
  let m := request "hello" (Some "0600") true true false false in
  let w' := snd (run_module m tmp_empty) in
  (∃ r', run_module (with_check_mode m true) w' = (Exit (ExitJson r'), w') ∧
         r_changed r' = false ∧ r_backup_file r' = None) ∧
  (∃ r', run_module (with_check_mode m false) w' = (Exit (ExitJson r'), w') ∧
         r_changed r' = false ∧ r_backup_file r' = None).
Proof.
  intros m w'.
  assert (run_module m tmp_empty
          = (Exit (ExitJson (Result true "/tmp/a.txt" "hello" None None)), w'))
    as Hrun by (vm_compute; reflexivity).
  assert (readable w' (path_of m)) as Hread
    by (eexists _, _, _; vm_compute; reflexivity).
  split;
    apply (rerun_changes_nothing m tmp_empty _ w' eq_refl eq_refl Hrun eq_refl Hread).
Defined.

(** ** X2: [force=no] creates, and only once *)

(** X2.  With [force=no] the module exits successfully only when the target
    was absent, and then reports [changed]; once a real run has created the
    file, the same request fails with the "already exists" error and
    touches nothing. *)
Theorem force_no_creates_only_once m w r w' :
  p_force (module_params m) = false →
  run_module m w = (Exit (ExitJson r), w') →
  fs w !! path_of m = None ∧
  r_changed r = true ∧
  (check_mode m = false →
   is_Some (fs w' !! path_of m) ∧
   run_module m w'
   = (Exit (FailJson (force_message (path_of m)) initial_result), w')).
Proof.
  intros Hf Hrun.
  assert (fs w !! path_of m = None) as Hnone.
  { destruct (fs w !! path_of m) eqn:E; [| done].
    rewrite (run_force_no m w Hf) in Hrun by eauto. discriminate. }
  split; [done |]. split.
  - destruct (check_mode m) eqn:Hc.
    + rewrite (run_check_mode m w (or_introl Hnone) Hc) in Hrun.
      injection Hrun as <- _. unfold reported; simpl.
      by rewrite (text_at_absent _ _ Hnone).
    + assert (needs_write m w) as Hn by (split; [done | by left]).
      destruct (run_write_trace m w Hn) as (_ & r1 & w1 & _ & Hr1 & Hw).
      rewrite Hw in Hrun.
      by destruct (write_step_frame m r1 w1 _ _ Hr1 Hrun) as (<- & _).
  - intros Hc.
    destruct (run_success_node m w r w' Hc Hrun) as (d & rd & wr & Hnode & _).
    split; [eauto |]. apply run_force_no; [done | eauto].
Qed.

Lemma force_no_once_witness :
  let m := request "hello" None false false false false in
  fs tmp_empty !! path_of m = None ∧
  run_module m tmp_empty
    = (Exit (ExitJson (Result true "/tmp/a.txt" "hello" None None)), tmp_hello) ∧
  run_module m tmp_hello
    = (Exit (FailJson (force_message (path_of m)) initial_result), tmp_hello).
Proof.
  intros m.
  assert (run_module m tmp_empty
          = (Exit (ExitJson (Result true "/tmp/a.txt" "hello" None None)), tmp_hello))
    as Hrun by (vm_compute; reflexivity).
  destruct (force_no_creates_only_once m tmp_empty _ tmp_hello eq_refl Hrun)
    as (Hnone & _ & Hagain).
  split; [exact Hnone |]. split; [exact Hrun |].
  exact (proj2 (Hagain eq_refl)).
Defined.

(** ** X3: what a successful real run leaves at the target *)

(** X3.  After a real run has exited successfully the target is a regular
    file.  It holds exactly the requested content, or it was left as it
    was found because the text read from it is the requested content.
    Each of owner, group and mode that the request names has the requested
    value (the mode as the file had it written, if that is the same
    number), and each it does not name is as it was on the file before the
    run (or, for a file the run created, as the process creates files). *)
Theorem successful_real_run_converges m w r w' :
  check_mode m = false →
  run_module m w = (Exit (ExitJson r), w') →
  ∃ d st rd wr,
    fs w' !! path_of m = Some (File d st rd wr) ∧
    (d = content_of m ∨
     (file_data w (path_of m) = Some d ∧
      open_read (path_of m) w = (Ret (content_of m), w))) ∧
    st_owner st = default (st_owner (prior_attrs w (path_of m)))
                    (p_owner (module_params m)) ∧
    st_group st = default (st_group (prior_attrs w (path_of m)))
                    (p_group (module_params m)) ∧
    (st_mode st = default (st_mode (prior_attrs w (path_of m)))
                    (p_mode (module_params m)) ∨
     (st_mode st = st_mode (prior_attrs w (path_of m)) ∧
      ∃ mode, p_mode (module_params m) = Some mode ∧
              same_mode mode (st_mode st) = true)).
Proof.
  intros Hc Hrun.
  destruct (run_success_node m w r w' Hc Hrun) as (d & rd & wr & Hnode & _ & Hd).
  eexists d, _, rd, wr. split; [exact Hnode |]. split; [exact Hd |].
  split; [done |]. split; [done |]. simpl.
  destruct (p_mode (module_params m)) as [mode|]; simpl; [| by left].
  destruct (same_mode mode (st_mode (prior_attrs w (path_of m)))) eqn:Hs;
    [right; eauto | by left].
Qed.

(** Overwriting "hello" by "world" as [deploy] and asking for mode 0200
    only: the owner stays, and the file is no longer readable. *)
Lemma converges_witness :
  let m := request "world" (Some "0200") true false false false in
  ∃ d st rd wr,
    fs (snd (run_module m tmp_hello_deploy)) !! path_of m = Some (File d st rd wr) ∧
    (d = content_of m ∨
     (file_data tmp_hello_deploy (path_of m) = Some d ∧
      open_read (path_of m) tmp_hello_deploy = (Ret (content_of m), tmp_hello_deploy))) ∧
    st_owner st = default (st_owner (prior_attrs tmp_hello_deploy (path_of m)))
                    (p_owner (module_params m)) ∧
    st_group st = default (st_group (prior_attrs tmp_hello_deploy (path_of m)))
                    (p_group (module_params m)) ∧
    (st_mode st = default (st_mode (prior_attrs tmp_hello_deploy (path_of m)))
                    (p_mode (module_params m)) ∨
     (st_mode st = st_mode (prior_attrs tmp_hello_deploy (path_of m)) ∧
      ∃ mode, p_mode (module_params m) = Some mode ∧
              same_mode mode (st_mode st) = true)).
Proof.
  apply (successful_real_run_converges
           (request "world" (Some "0200") true false false false) tmp_hello_deploy
           (Result true "/tmp/a.txt" "world" None None));
    [reflexivity | vm_compute; reflexivity].
Defined.

(** ** X4: nothing else is touched *)

(** X4.  However a run ends, every entry the machine had is still there,
    and every entry other than the target and the backup path is exactly
    as it was: the module removes nothing and alters no other file or
    directory. *)
Theorem run_keeps_other_entries m w o w' k n :
  run_module m w = (o, w') →
  fs w !! k = Some n →
  is_Some (fs w' !! k) ∧
  (k ≠ path_of m → k ≠ backup_path (path_of m) w → fs w' !! k = Some n).
Proof.
  intros Hrun Hk.
  set (b := backup_path (path_of m) w).
  assert (grows_but [path_of m; b] w w') as G.
  { destruct (target_cases m w) as
      [(Hf & Hex) | [(Hf & n' & e & Hn & Hr & He) | [(Hf & Hex & e & Hr & He) |
       [(Hg & Hc) | [(Hc & Hf & Hr) | Hn]]]]].
    - rewrite (run_force_no m w Hf Hex) in Hrun. injection Hrun as _ <-.
      apply grows_but_refl.
    - rewrite (run_unreadable m w n' e Hf Hn Hr He) in Hrun.
      injection Hrun as _ <-. apply grows_but_refl.
    - rewrite (run_undecodable m w e Hf Hex Hr He) in Hrun.
      injection Hrun as _ <-. apply grows_but_refl.
    - rewrite (run_check_mode m w Hg Hc) in Hrun. injection Hrun as _ <-.
      apply grows_but_refl.
    - destruct (run_same m w Hc Hf Hr) as (w1 & Hs & Hrun1).
      rewrite Hrun1 in Hrun. injection Hrun as _ <-.
      destruct (set_fs_attributes_node _ _ _ _ _ Hs) as (K & _ & Hnode & _).
      simpl in K, Hnode.
      apply (keeps_but_grows_but (path_of m)); [done | by left |].
      apply Hnode. by eapply open_read_exists.
    - destruct (run_write_trace m w Hn) as (_ & r1 & w1 & Hb & Hr1 & Hw).
      rewrite Hw in Hrun.
      destruct (backup_step_trace m w Hn) as
        (r1' & w1' & Hb' & Hsame & _ & _ & Hcases).
      rewrite Hb in Hb'. injection Hb' as <- <-.
      destruct (write_step_frame_any m r1 w1 _ _ Hr1 Hrun) as (K & Hsome & _).
      apply (grows_but_trans _ w w1).
      + destruct Hcases as
          [[_ ->] | [(_ & _ & Kb & _ & text & d & _ & _ & _ & Hbd) | (_ & _ & e & _ & ->)]].
        * apply grows_but_refl.
        * apply (keeps_but_grows_but b); [done | by right; left |].
          fold b in Hbd. unfold file_data in Hbd.
          destruct (fs w1 !! b); [eauto | done].
        * intros k' n' Hk'. split; [eauto | done].
      + intros k' n' Hk'. destruct K as (F & _).
        destruct (decide (k' = path_of m)) as [-> | Hne].
        * split; [apply Hsome; eauto |]. intros Hnot. by destruct Hnot; left.
        * rewrite (F _ _ Hne Hk'). split; [eauto | done]. }
  destruct (G k n Hk) as [Hsome Hfar]. split; [done |].
  intros H1 H2. apply Hfar. by intros [<- | [<- | []]].
Qed.

(** Overwriting [/tmp/a.txt] with a backup leaves [/tmp] as it was. *)
Lemma keeps_witness :
  let m := request "world" None true true false false in
  let w' := snd (run_module m tmp_hello) in
  is_Some (fs w' !! "/tmp") ∧ fs w' !! "/tmp" = Some (Dir dir_attrs true).
Proof.
  intros m w'.
  destruct (run_keeps_other_entries m tmp_hello
              (Exit (ExitJson (Result true "/tmp/a.txt" "world" None
                                 (Some "/tmp/a.txt.12345.2024-01-01@12:00:00~"))))
              w' "/tmp" (Dir dir_attrs true)) as [H1 H2];
    [vm_compute; reflexivity | vm_compute; reflexivity |].
  split; [exact H1 |]. apply H2; vm_compute; discriminate.
Defined.

(** ** X5: a backup is recorded only for an overwrite *)

(** X5.  However a run ends, its result names a backup file only if the
    request has [backup=yes], the run was a real one past the force gate,
    and the target existed and the text read from it was not the requested
    content; the name is then [<path>.<pid>.<timestamp>~] and that file
    holds what the target held when the run ends.  So no backup is ever
    recorded for a target that was absent or was read as the requested
    content, nor in check mode. *)
Theorem backup_recorded_only_for_overwrite m w x w' b :
  run_module m w = (Exit x, w') →
  r_backup_file (exit_result x) = Some b →
  p_backup (module_params m) = true ∧
  check_mode m = false ∧
  b = backup_path (path_of m) w ∧
  ∃ text d, open_read (path_of m) w = (Ret text, w) ∧ text ≠ content_of m ∧
            file_data w (path_of m) = Some d ∧ file_data w' b = Some d.
Proof.
  intros Hrun Hbf.
  destruct (run_result_shape m w _ _ Hrun) as [Hinit | (Hg & _ & Hchk & _ & Hunch)].
  { rewrite Hinit in Hbf. discriminate. }
  destruct (check_mode m) eqn:Hc.
  { rewrite (Hchk eq_refl) in Hbf. discriminate. }
  destruct (r_changed (reported m w)) eqn:Hch;
    [| rewrite (Hunch eq_refl) in Hbf; discriminate].
  assert (needs_write m w) as Hn.
  { split; [done |].
    destruct Hg as [Hnone | (Hf & text & Hr)]; [by left |].
    right. split; [done |]. exists text. split; [done |].
    intros ->. apply (reported_unchanged m w) in Hr. congruence. }
  destruct (run_write_trace m w Hn) as (_ & r1 & w1 & Hb & Hr1 & Hw).
  rewrite Hw in Hrun.
  destruct (write_step_frame m r1 w1 _ _ Hr1 Hrun) as (Hx & K & _).
  destruct (backup_step_trace m w Hn) as (r1' & w1' & Hb' & _ & _ & _ & Hcases).
  rewrite Hb in Hb'. injection Hb' as <- <-. rewrite Hx in Hbf.
  destruct Hcases as
    [[-> _] | [(-> & Hbk & _ & _ & text & d & Hr & Hne & Hd & Hbd) | (-> & _)]];
    [discriminate | | discriminate].
  simpl in Hbf. injection Hbf as <-.
  split; [done |]. split; [done |]. split; [done |].
  exists text, d. do 3 (split; [done |]).
  unfold file_data in *. destruct K as (F & _).
  destruct (fs w1 !! backup_path (path_of m) w) as [nb|] eqn:Hnb; [| done].
  by rewrite (F _ _ (backup_path_fresh _ _) Hnb).
Qed.

Lemma backup_recorded_witness :
  let m := request "world" None true true false false in
  let b := "/tmp/a.txt.12345.2024-01-01@12:00:00~" in
  p_backup (module_params m) = true ∧
  check_mode m = false ∧
  b = backup_path (path_of m) tmp_hello ∧
  ∃ text d, open_read (path_of m) tmp_hello = (Ret text, tmp_hello) ∧
            text ≠ content_of m ∧
            file_data tmp_hello (path_of m) = Some d ∧
            file_data (snd (run_module m tmp_hello)) b = Some d.
Proof.
  apply (backup_recorded_only_for_overwrite
           (request "world" None true true false false) tmp_hello
           (ExitJson (Result true "/tmp/a.txt" "world" None
                        (Some "/tmp/a.txt.12345.2024-01-01@12:00:00~"))));
    vm_compute; reflexivity.
Defined.

(** ** X6: the only warning is that of a failed backup *)

(** X6.  However a run ends, it has logged nothing, or exactly one warning:
    the one [create_backup] builds from the error [backup_local] raised,
    in a run with [backup=yes] whose result, if it ends with one, then
    names no backup. *)
Theorem warns_only_for_failed_backup m w o w' :
  run_module m w = (o, w') →
  warnings w' = warnings w ∨
  ∃ e, backup_local (path_of m) w = (Raise e, w) ∧
       p_backup (module_params m) = true ∧
       warnings w' = (warnings w ++ [backup_warning e])%list ∧
       ∀ x, o = Exit x → r_backup_file (exit_result x) = None.
Proof.
  intros Hrun.
  destruct (target_cases m w) as
    [(Hf & Hex) | [(Hf & n' & e & Hn & Hr & He) | [(Hf & Hex & e & Hr & He) |
     [(Hg & Hc) | [(Hc & Hf & Hr) | Hn]]]]].
  - rewrite (run_force_no m w Hf Hex) in Hrun. injection Hrun as _ <-. by left.
  - rewrite (run_unreadable m w n' e Hf Hn Hr He) in Hrun.
    injection Hrun as _ <-. by left.
  - rewrite (run_undecodable m w e Hf Hex Hr He) in Hrun.
    injection Hrun as _ <-. by left.
  - rewrite (run_check_mode m w Hg Hc) in Hrun. injection Hrun as _ <-. by left.
  - destruct (run_same m w Hc Hf Hr) as (w1 & Hs & Hrun1).
    rewrite Hrun1 in Hrun. injection Hrun as _ <-.
    destruct (set_fs_attributes_node _ _ _ _ _ Hs) as (K & _).
    left. by destruct K as (_ & _ & _ & _ & _ & ->).
  - destruct (run_write_trace m w Hn) as (_ & r1 & w1 & Hb & Hr1 & Hw).
    rewrite Hw in Hrun.
    destruct (write_step_frame_any m r1 w1 _ _ Hr1 Hrun) as (_ & _ & Hwarn & Hx).
    destruct (backup_step_trace m w Hn) as (r1' & w1' & Hb' & _ & _ & _ & Hcases).
    rewrite Hb in Hb'. injection Hb' as <- <-. rewrite Hwarn.
    destruct Hcases as [[_ ->] | [(_ & _ & _ & -> & _) | (-> & Hbk & e & Hl & ->)]];
      [by left | by left |].
    right. exists e. do 3 (split; [done |]).
    intros x Hox. by rewrite (Hx x Hox).
Qed.

Lemma warns_witness :
  let m := request "world" None true true false false in
  let e := EACCES "/tmp/a.txt.12345.2024-01-01@12:00:00~" in
  backup_local (path_of m) tmp_hello_locked_dir = (Raise e, tmp_hello_locked_dir) ∧
  warnings (snd (run_module m tmp_hello_locked_dir)) = [backup_warning e].
Proof.
  intros m e.
  assert (backup_local (path_of m) tmp_hello_locked_dir
          = (Raise e, tmp_hello_locked_dir)) as Hl by (vm_compute; reflexivity).
  split; [exact Hl |].
  destruct (warns_only_for_failed_backup m tmp_hello_locked_dir
              (Exit (ExitJson (Result true "/tmp/a.txt" "world" None None)))
              (snd (run_module m tmp_hello_locked_dir)))
    as [Hnone | (e' & Hl' & _ & Hw & _)]; [vm_compute; reflexivity | | ].
  - vm_compute in Hnone. discriminate.
  - rewrite Hl in Hl'. injection Hl' as <-. exact Hw.
Defined.

(** ** X7: the reported diff agrees with [changed] *)

(** X7.  Whenever a result carries a before/after pair, [before] is the
    text read from the target when the run began and [after] the requested
    content; if the two differ the result is marked changed; and in check
    mode the result is marked changed only if they differ. *)
Theorem diff_pair_agrees_with_changed m w x w' d :
  run_module m w = (Exit x, w') →
  r_diff (exit_result x) = Some (Some d) →
  open_read (path_of m) w = (Ret (before d), w) ∧
  after d = content_of m ∧
  (before d ≠ after d → r_changed (exit_result x) = true) ∧
  (check_mode m = true → r_changed (exit_result x) = true → before d ≠ after d).
Proof.
  intros Hrun Hd.
  destruct (run_result_shape m w _ _ Hrun) as [Hinit | (_ & Hdiff & Hchk & Hch & _)].
  { rewrite Hinit in Hd. discriminate. }
  rewrite Hdiff in Hd. unfold reported in Hd, Hch, Hchk; simpl in Hd, Hch.
  destruct (_diff m || check_mode m); [| done].
  destruct (text_at w (path_of m)) as [old|] eqn:Hold; [| done].
  simpl in Hd. injection Hd as <-. simpl.
  split; [by apply text_at_Some |]. split; [done |]. split.
  - intros Hne. apply Hch. apply negb_true_iff, bool_decide_eq_false. congruence.
  - intros Hc. rewrite (Hchk Hc). simpl.
    intros Hneg. apply negb_true_iff, bool_decide_eq_false in Hneg. congruence.
Qed.

Lemma diff_pair_witness :
  let m := request "world" None true false true false in
  let d := {| before := "hello"; after := "world" |} in
  let x := ExitJson (Result true "/tmp/a.txt" "world" (Some (Some d)) None) in
  open_read (path_of m) tmp_hello = (Ret (before d), tmp_hello) ∧
  after d = content_of m ∧
  (before d ≠ after d → r_changed (exit_result x) = true) ∧
  (check_mode m = true → r_changed (exit_result x) = true → before d ≠ after d).
Proof.
  apply (diff_pair_agrees_with_changed
           (request "world" None true false true false) tmp_hello
           (ExitJson (Result true "/tmp/a.txt" "world"
                        (Some (Some {| before := "hello"; after := "world" |})) None))
           tmp_hello);
    [vm_compute; reflexivity | reflexivity].
Defined.

(** ** X8: a successful [write_file] leaves the parent directory in place *)

(** X8.  When [write_file] reports success its error text is [None], the
    file holds exactly the given content, and, unless the path is a bare
    name, its parent directory exists afterwards; a parent that was
    missing has been created writable, owned by the process, with mode
    0755. *)
Theorem write_file_success_leaves_parent path content w err w' :
  write_file path content w = (Ret (true, err), w') →
  err = None ∧
  file_data w' path = Some content ∧
  (os_path_dirname path = "" ∨
   (is_Some (fs w' !! os_path_dirname path) ∧
    (fs w !! os_path_dirname path = None →
     fs w' !! os_path_dirname path
     = Some (Dir (Attrs (euser w) (egroup w) "0755") true)))).
Proof.
  intros H.
  destruct (write_file_cases path content w) as
    [(w1 & Ht & Hw & Hdata & _) | [(e & w1 & _ & Hw & _) | (w1 & _ & Hw & _)]];
    rewrite Hw in H; [| discriminate | discriminate].
  injection H as <- <-.
  destruct (write_file_try_success _ _ _ _ _ Ht) as (_ & _ & _ & Hdir).
  by repeat split.
Qed.

(** Writing [/tmp/new/a.txt] where [/tmp/new] does not exist yet. *)
Lemma write_file_parent_witness :
  let w' := snd (write_file "/tmp/new/a.txt" "hello" tmp_empty) in
  file_data w' "/tmp/new/a.txt" = Some "hello" ∧
  fs w' !! "/tmp/new" = Some (Dir (Attrs "root" "root" "0755") true).
Proof.
  intros w'.
  destruct (write_file_success_leaves_parent "/tmp/new/a.txt" "hello" tmp_empty None w')
    as (_ & Hdata & [Hbare | [_ Hnew]]); [vm_compute; reflexivity | | ].
  - vm_compute in Hbare. discriminate.
  - split; [exact Hdata |]. apply Hnew. vm_compute. reflexivity.
Defined.

(** ** X9: the ways a run can end *)

(** X9.  A run ends in [exit_json], in [fail_json], or with an exception
    that no handler of the module catches.  A failure is one of three: the
    force error or the read error, each with the initial result and the
    machine untouched, or, in a real run only, the write error, with a
    result already marked changed that carries the request's path.  An
    escaping exception is one of two: [UnicodeDecodeError] from the main
    read of a target whose bytes are no UTF-8, the machine untouched; or,
    in a real run only, [UnicodeEncodeError] from the write of a content
    that cannot be encoded, the target left empty. *)
Theorem run_ends_in_exit_or_known_failure m w :
  ∃ o w',
    run_module m w = (o, w') ∧
    ((∃ x, o = Exit x ∧
       (succeeded x = true ∨
        (x = FailJson (force_message (path_of m)) initial_result ∧ w' = w) ∨
        (∃ e, x = FailJson (read_message (path_of m) e) initial_result ∧
              IOError_OSError e = true ∧ w' = w) ∨
        (∃ e r, x = FailJson (write_message (path_of m) e) r ∧
                IOError_OSError e = true ∧
                check_mode m = false ∧ r_changed r = true ∧ r_path r = path_of m))) ∨
     (o = Raise UnicodeDecodeError ∧ w' = w ∧
      p_force (module_params m) = true ∧
      ∃ d, file_data w (path_of m) = Some d ∧ utf8_valid d = false) ∨
     (o = Raise UnicodeEncodeError ∧ check_mode m = false ∧
      utf8_valid (content_of m) = false ∧ file_data w' (path_of m) = Some "")).
Proof.
  destruct (target_cases m w) as
    [(Hf & Hex) | [(Hf & n & e & Hn & Hr & He) | [(Hf & Hex & e & Hr & He) |
     [(Hg & Hc) | [(Hc & Hf & Hr) | Hn]]]]].
  - eexists _, _. split; [by apply run_force_no |]. left. eexists. split; [done |].
    right; left. done.
  - eexists _, _. split; [by eapply run_unreadable |]. left. eexists. split; [done |].
    right; right; left. eauto.
  - eexists _, _. split; [by eapply run_undecodable |]. right; left.
    destruct (open_read_Raise _ _ _ _ Hr) as (_ & [He' | (-> & d & st & wr & Hp & Hv)]);
      [congruence |].
    do 3 (split; [done |]). exists d. unfold file_data. by rewrite Hp.
  - eexists _, _. split; [by apply run_check_mode |]. left. eexists. split; [done |].
    by left.
  - destruct (run_same m w Hc Hf Hr) as (w' & _ & Hrun).
    eexists _, _. split; [exact Hrun |]. left. eexists. split; [done |]. by left.
  - destruct (run_write_trace m w Hn) as (_ & r1 & w1 & Hb & Hr1 & Hw).
    assert (r_path r1 = path_of m) as Hpath.
    { destruct (backup_step_trace m w Hn) as (r1' & w1' & Hb' & _ & _ & _ & Hcases).
      rewrite Hb in Hb'. injection Hb' as <- <-.
      by destruct Hcases as [[-> _] | [(-> & _) | (-> & _)]]. }
    destruct Hn as [Hc _].
    destruct (write_step_cases m r1 w1 Hr1) as
      [(w2 & w3 & _ & _ & _ & _ & Hw' & _) | [(e & w2 & _ & He & _ & Hw') |
       (w2 & _ & Hv & Hdata & _ & Hw')]];
      rewrite Hw' in Hw; eexists _, _; (split; [exact Hw |]).
    + left. eexists. split; [done |]. by left.
    + left. eexists. split; [done |]. right; right; right. exists e, r1. done.
    + right; right. done.
Qed.

(** ** X10: [create_backup] on its own *)

(** X10.  [create_backup] always returns: it neither raises nor ends the
    process, and it never alters the file it is asked to back up.  For a
    path that does not exist it returns [None] and leaves the machine
    untouched.  When it returns a path, that is [<path>.<pid>.<timestamp>~],
    the file there holds what the original holds, and nothing was logged;
    when it returns [None] the file system is as it was. *)
Theorem create_backup_always_returns path w :
  ∃ r w',
    create_backup path w = (Ret r, w') ∧
    fs w' !! path = fs w !! path ∧
    (fs w !! path = None → r = None ∧ w' = w) ∧
    (∀ b, r = Some b →
          b = backup_path path w ∧ warnings w' = warnings w ∧
          is_Some (file_data w path) ∧ file_data w' b = file_data w path) ∧
    (r = None → fs w' = fs w).
Proof.
  destruct (fs w !! path) as [n|] eqn:Hn.
  - assert (is_Some (fs w !! path)) as Hex by eauto.
    destruct (backup_local_cases path w) as [(b & w1 & Hl) | (e & Hl)].
    + assert (∃ d st r wr, n = File d st r wr) as (d & st & r & wr & ->).
      { unfold backup_local in Hl. rewrite Hn in Hl.
        destruct n as [d st [] wr|]; [eauto 10 | done | done]. }
      destruct (backup_local_Ret _ _ _ _ _ _ _ _ Hn Hl) as (-> & Hbd & K).
      exists (Some (backup_path path w)), w1.
      split; [by apply create_backup_Ret |].
      destruct K as (F & _ & _ & _ & _ & Hw).
      split; [by apply F; [apply not_eq_sym, backup_path_fresh |] |].
      split; [done |]. split; [| done].
      intros b [= <-].
      assert (file_data w path = Some d) as Hd by (unfold file_data; by rewrite Hn).
      rewrite Hd, Hbd. eauto.
    + exists None, (with_warning w (backup_warning e)).
      split; [by apply create_backup_Raise |]. by repeat split.
  - exists None, w. split; [| by repeat split].
    unfold create_backup, try_except, os_path_exists. step.
    rewrite Hn. done.
Qed.

(** ** X11: what a clean check-mode report promises *)

(** X11.  If a check-mode run exits with [changed = false], then the real
    run of the same request on the same machine exits successfully, alters
    no file's content, records no backup and logs nothing: at most the
    target's owner, group or mode change. *)
Theorem check_mode_unchanged_means_no_write m w r w1 :
  check_mode m = true →
  run_module m w = (Exit (ExitJson r), w1) →
  r_changed r = false →
  ∃ r' w',
    run_module (with_check_mode m false) w = (Exit (ExitJson r'), w') ∧
    (∀ k, file_data w' k = file_data w k) ∧
    keeps_but (path_of m) w w' ∧
    r_backup_file r' = None.
Proof.
  intros Hc Hrun Hr.
  assert (past_gates m w) as Hg.
  { destruct (target_cases m w) as
      [(Hf & Hex) | [(Hf & n & e & Hn & Hr' & He) | [(Hf & Hex & e & Hr' & He) |
       [(Hg & _) | [(Hc' & _) | (Hc' & _)]]]]]; try congruence.
    - rewrite (run_force_no m w Hf Hex) in Hrun. discriminate.
    - rewrite (run_unreadable m w n e Hf Hn Hr' He) in Hrun. discriminate.
    - by rewrite (run_undecodable m w e Hf Hex Hr' He) in Hrun. }
  rewrite (run_check_mode m w Hg Hc) in Hrun. injection Hrun as <- <-.
  apply (reported_unchanged m w) in Hr.
  assert (p_force (module_params m) = true) as Hf.
  { destruct Hg as [Hnone | (Hf & _)]; [| done].
    apply open_read_exists in Hr. rewrite Hnone in Hr. by destruct Hr. }
  set (m' := with_check_mode m false).
  destruct (run_same m' w eq_refl Hf Hr) as (w' & Hs & Hrun').
  destruct (set_fs_attributes_cases (file_args_of m') false w)
    as (w2 & Hs2 & _ & _ & _ & Hdata & _).
  rewrite Hs in Hs2. injection Hs2 as <-.
  destruct (set_fs_attributes_node _ _ _ _ _ Hs) as (K & _).
  eexists _, w'. split; [exact Hrun' |].
  split; [exact Hdata |]. split; [exact K | done].
Qed.

Lemma check_mode_clean_witness :
  let m := request "hello" (Some "0600") true true true false in
  ∃ r' w',
    run_module (with_check_mode m false) tmp_hello = (Exit (ExitJson r'), w') ∧
    (∀ k, file_data w' k = file_data tmp_hello k) ∧
    keeps_but (path_of m) tmp_hello w' ∧
    r_backup_file r' = None.
Proof.
  apply (check_mode_unchanged_means_no_write
           (request "hello" (Some "0600") true true true false) tmp_hello
           (Result false "/tmp/a.txt" "hello"
              (Some (Some {| before := "hello"; after := "hello" |})) None)
           tmp_hello);
    [reflexivity | vm_compute; reflexivity | reflexivity].
Defined.

(** ** X12: when a successful run reports a change *)

(** X12.  When the module exits successfully, [changed] is true exactly
    when the target did not exist before, or the text read from it was not
    the requested content, or its owner/group/mode differed from those
    requested and were altered by the run. *)
Theorem changed_iff_created_text_differs_or_attrs_altered m w r w' :
  run_module m w = (Exit (ExitJson r), w') →
  r_changed r = true ↔
    fs w !! path_of m = None ∨
    (∃ text, open_read (path_of m) w = (Ret text, w) ∧ text ≠ content_of m) ∨
    (attrs_differ (file_args_of m) w = true ∧
     file_attrs w' (path_of m) ≠ file_attrs w (path_of m)).
Proof.
  intros Hrun.
  destruct (target_cases m w) as
    [(Hf & Hex) | [(Hf & n & e & Hn & Hr & He) | [(Hf & Hex & e & Hr & He) |
     [(Hg & Hc) | [(Hc & Hf & Hr) | Hn]]]]].
  - rewrite (run_force_no m w Hf Hex) in Hrun. discriminate.
  - rewrite (run_unreadable m w n e Hf Hn Hr He) in Hrun. discriminate.
  - by rewrite (run_undecodable m w e Hf Hex Hr He) in Hrun.
  - (* check mode: the machine is as it was *)
    rewrite (run_check_mode m w Hg Hc) in Hrun.
    injection Hrun as <- <-. unfold reported; simpl.
    destruct Hg as [Hn | (Hf & text & Hr)].
    + rewrite (text_at_absent _ _ Hn). simpl. split; [by left | done].
    + rewrite (text_at_Ret _ _ _ Hr). case_bool_decide as Hd; simpl.
      * split; [done |].
        intros [Hn | [(text' & Hr' & Hne) | (_ & Hne)]]; [| congruence | done].
        apply open_read_exists in Hr. rewrite Hn in Hr. by destruct Hr.
      * split; [| done]. intros _. right; left. exists text. split; congruence.
  - (* same text: only the attributes can change *)
    destruct (run_same m w Hc Hf Hr) as (w1 & Hs & Hrun1).
    rewrite Hrun1 in Hrun. injection Hrun as <- <-. simpl.
    destruct (set_fs_attributes_cases (file_args_of m) false w)
      as (w2 & Hs2 & Hsame & Halt & _).
    rewrite Hs in Hs2. injection Hs2 as <-.
    split.
    + intros Hd. right; right. split; [done |]. by apply Halt.
    + intros [Hn | [(text & Hr' & Hne) | (Hd & _)]]; [| congruence | done].
      apply open_read_exists in Hr. rewrite Hn in Hr. by destruct Hr.
  - (* the write branch *)
    destruct (run_write_trace m w Hn) as (_ & r1 & w1 & _ & Hr1 & Hw).
    rewrite Hw in Hrun.
    destruct (write_step_frame m r1 w1 _ _ Hr1 Hrun) as (Hx & _).
    simpl in Hx. subst r1.
    split; [| done]. intros _.
    destruct Hn as (_ & [Hn | (_ & text & Hr & Hd)]); [by left |].
    right; left. eauto.
Qed.

(** A run that leaves the content alone and changes the mode from 0644 to
    0600 reports [changed]. *)
Lemma changed_iff_witness :
  let m := request "hello" (Some "0600") true false false false in
  let r := Result true "/tmp/a.txt" "hello" None None in
  r_changed r = true ↔
    fs tmp_hello !! path_of m = None ∨
    (∃ text, open_read (path_of m) tmp_hello = (Ret text, tmp_hello) ∧
             text ≠ content_of m) ∨
    (attrs_differ (file_args_of m) tmp_hello = true ∧
     file_attrs (snd (run_module m tmp_hello)) (path_of m)
     ≠ file_attrs tmp_hello (path_of m)).
Proof.
  apply (changed_iff_created_text_differs_or_attrs_altered
           (request "hello" (Some "0600") true false false false) tmp_hello
           (Result true "/tmp/a.txt" "hello" None None)).
  vm_compute. reflexivity.
Defined.

(** ** X13: the three ways the write step ends *)

(** X13.  A real run that reaches the write step (past both gates, target
    absent or read as other text than the requested content) first goes
    through the backup statement, which always returns, and then through
    [write_file].  Either its [try] block returns: the content could be
    encoded, the target holds exactly that content, and the module exits
    successfully with the target still holding it.  Or the block raises an
    [OSError]: [write_file] returns [False] with [str] of the error, and
    the module fails with the write message built from it.  Or the content
    cannot be encoded: the block raises [UnicodeEncodeError] past the
    handler, the run ends with it, and the target is empty. *)
Theorem write_step_ends_in_one_of_three m w :
  needs_write m w →
  ∃ r1 w1,
    backup_step m (bool_decide (is_Some (fs w !! path_of m))) (reported m w) w
      = (Ret r1, w1) ∧
    ((∃ w2 w',
        write_file_try (path_of m) (content_of m) w1 = (Ret (true, None), w2) ∧
        utf8_valid (content_of m) = true ∧
        file_data w2 (path_of m) = Some (content_of m) ∧
        run_module m w = (Exit (ExitJson r1), w') ∧
        file_data w' (path_of m) = Some (content_of m)) ∨
     (∃ e w2,
        write_file_try (path_of m) (content_of m) w1 = (Raise e, w2) ∧
        IOError_OSError e = true ∧
        write_file (path_of m) (content_of m) w1 = (Ret (false, Some (str e)), w2) ∧
        run_module m w = (Exit (FailJson (write_message (path_of m) e) r1), w2)) ∨
     (∃ w2,
        write_file_try (path_of m) (content_of m) w1 = (Raise UnicodeEncodeError, w2) ∧
        utf8_valid (content_of m) = false ∧
        write_file (path_of m) (content_of m) w1 = (Raise UnicodeEncodeError, w2) ∧
        run_module m w = (Raise UnicodeEncodeError, w2) ∧
        file_data w2 (path_of m) = Some "")).
Proof.
  intros Hn.
  destruct (run_write_trace m w Hn) as (_ & r1 & w1 & Hstep & Hr1 & Hrun).
  exists r1, w1. split; [done |].
  destruct (write_file_cases (path_of m) (content_of m) w1) as
    [(w2 & Ht & _ & _ & Hv & _) | [(e & w2 & Ht & Hwf & He & _) |
     (w2 & Ht & Hwf & Hv & Hdata & _)]];
    destruct (write_step_cases m r1 w1 Hr1) as
      [(w3 & w4 & Ht' & Hdata' & _ & _ & Hw & Hd4 & _) |
       [(e' & w3 & Ht' & He' & _ & Hw) | (w3 & Ht' & _ & _ & _ & Hw)]];
    rewrite Ht in Ht'; try discriminate.
  - injection Ht' as <-. left. exists w2, w4. rewrite Hrun, Hw, Hd4. by repeat split.
  - injection Ht' as <- <-. right; left. exists e, w2. rewrite Hrun, Hw. by repeat split.
  - injection Ht' as -> _. discriminate.
  - injection Ht' as <- _. discriminate.
  - injection Ht' as <-. right; right. exists w2. rewrite Hrun, Hw. by repeat split.
Qed.

(** Overwriting "hello" by "world": the first way. *)
Lemma write_step_witness :
  let m := request "world" None true false false false in
  let w' := snd (run_module m tmp_hello) in
  run_module m tmp_hello
    = (Exit (ExitJson (Result true "/tmp/a.txt" "world" None None)), w') ∧
  file_data w' (path_of m) = Some (content_of m).
Proof.
  intros m w'.
  assert (needs_write m tmp_hello) as Hn.
  { split; [reflexivity |]. right. split; [reflexivity |].
    exists "hello". split; [vm_compute; reflexivity | vm_compute; discriminate]. }
  destruct (write_step_ends_in_one_of_three m tmp_hello Hn) as
    (r1 & w1 & Hb & [(w2 & w3 & _ & _ & _ & Hrun & Hdata) |
                     [(e & w2 & _ & _ & _ & Hrun) | (w2 & _ & Hv & _)]]).
  - assert (w3 = w') as <- by (unfold w'; by rewrite Hrun).
    split; [| exact Hdata]. rewrite Hrun.
    vm_compute in Hb. by injection Hb as <- _.
  - vm_compute in Hrun. discriminate.
  - vm_compute in Hv. discriminate.
Defined.

(** ** X14: [write_file] where the directory is there *)


